(** * Nomad: CPU fingerprint helper, evaluation broker and evaluation list endpoint

    A shallow embedding of [helper/stats/cpu.go] (package [stats]) together
    with the parts of the Go runtime and of the libraries it calls, followed by
    the properties of the node fingerprint, of the evaluation broker and of the
    evaluations list endpoint.

    - [float64] values are IEEE 754 binary64 numbers ([spec_float] with
      precision 53 and maximal exponent 1024), so conversions, products,
      quotients and [math.Floor] round exactly as the hardware does.
    - The package-level variables of [stats] form the record [Globals]; the
      functions of the package are computations over it that also record the
      calls they make to the probes.
    - The host (sysctl tree, logical core count, wall clock, clock frequency)
      is the record [Host].
    - The job client status summary component of the UI is modelled by its
      expansion state: the browser's local storage and the cached value of
      the computed property [isExpanded]. *)

From Stdlib Require Import ZArith List String Ascii Bool Lia DecimalString.
From Stdlib Require DecimalN DecimalPos.
From Stdlib Require Import Sorting.Sorted Sorting.Permutation.
From Stdlib Require Import Floats.SpecFloat.
Import ListNotations.

Open Scope Z_scope.

(** ** Go values *)

Module Go.

(** [error]: [None] is the nil error, [Some msg] an error whose [Error()]
    text is [msg]. *)
Definition error := option string.

(** [int] is 64 bits wide on the platforms this file builds for. *)
Definition wrap_int (z : Z) : Z := (z + 2 ^ 63) mod 2 ^ 64 - 2 ^ 63.

Definition wrap_uint32 (z : Z) : Z := z mod 2 ^ 32.

(** The conversion [int32(u)] of a [uint32]. *)
Definition int32_of_uint32 (u : Z) : Z :=
  if u <? 2 ^ 31 then u else u - 2 ^ 32.

(** [strconv.FormatUint(u, 10)]. *)
Definition FormatUint10 (u : Z) : string :=
  NilZero.string_of_uint (N.to_uint (Z.to_N u)).

(** [fmt.Errorf(prefix + "%v", err)] for a non-nil [err]. *)
Definition Errorf (prefix msg : string) : string := (prefix ++ msg)%string.

(** *** strings *)

Definition isSpace (c : ascii) : bool :=
  let n := nat_of_ascii c in
  ((9 <=? n) && (n <=? 13))%nat || (n =? 32)%nat.

Definition lowerAscii (c : ascii) : ascii :=
  let n := nat_of_ascii c in
  if ((65 <=? n) && (n <=? 90))%nat then ascii_of_nat (n + 32) else c.

(** [strings.ToLower] on ASCII text, where it lower-cases the letters A-Z
    byte by byte (beyond ASCII the Go function maps runes). *)
Fixpoint ToLower (s : string) : string :=
  match s with
  | EmptyString => EmptyString
  | String c r => String (lowerAscii c) (ToLower r)
  end.

(** [strings.Fields] on ASCII text: the maximal runs of non-space
    characters, the space characters being tab, line feed, vertical tab, form
    feed, carriage return and space (beyond ASCII the Go function splits on
    Unicode white space).  [cur] is the field being read, in reverse. *)
Fixpoint fields_from (cur : list ascii) (s : string) : list string :=
  let flush := match cur with
               | [] => []
               | _ => [string_of_list_ascii (rev cur)]
               end in
  match s with
  | EmptyString => flush
  | String c r =>
      if isSpace c then flush ++ fields_from [] r
      else fields_from (c :: cur) r
  end.

Definition Fields (s : string) : list string := fields_from [] s.

End Go.

(** ** float64 *)

Module Float64.

Definition float64 := spec_float.

Definition prec : Z := 53.
Definition emax : Z := 1024.

Definition zero : float64 := S754_zero false.

(** The conversion [float64(n)] of an integer, rounding to nearest even. *)
Definition of_int (n : Z) : float64 := binary_normalize prec emax n 0 false.

Definition mul (x y : float64) : float64 := SFmul prec emax x y.
Definition div (x y : float64) : float64 := SFdiv prec emax x y.

(** The greatest integer below or equal to a finite value [±m·2^e]; a shift
    to the right of a negative number rounds towards minus infinity. *)
Definition floor_int (x : float64) : option Z :=
  match x with
  | S754_zero _ => Some 0
  | S754_finite s m e => Some (Z.shiftl (cond_Zopp s (Zpos m)) e)
  | _ => None
  end.

(** [math.Floor]: the greatest integer value below or equal to [x];
    [Floor(±0) = ±0], [Floor(±Inf) = ±Inf], [Floor(NaN) = NaN]. *)
Definition Floor (x : float64) : float64 :=
  match x with
  | S754_finite s m e => of_int (Z.shiftl (cond_Zopp s (Zpos m)) e)
  | _ => x
  end.

End Float64.

Import Float64.

(** ** context and time *)

Module Time.

(** [time.Duration] counts nanoseconds. *)
Definition Duration := Z.
Definition Nanosecond : Duration := 1.
Definition Microsecond : Duration := 1000 * Nanosecond.
Definition Millisecond : Duration := 1000 * Microsecond.
Definition Second : Duration := 1000 * Millisecond.

End Time.

Module Context.

(** A context as far as this package can observe it: its deadline, in
    nanoseconds of wall-clock time, when it has one. *)
Record Context := { Deadline : option Z }.

Definition Background : Context := {| Deadline := None |}.

(** [context.WithTimeout(parent, d)] called at time [now]: the deadline is
    [now + d] unless the parent already ends earlier. *)
Definition WithTimeout (parent : Context) (d : Time.Duration) (now : Z)
  : Context :=
  match Deadline parent with
  | Some p => if p <? now + d then parent else {| Deadline := Some (now + d) |}
  | None => {| Deadline := Some (now + d) |}
  end.

End Context.

(** ** multierror *)

Module Multierror.

(** [*multierror.Error]: [None] is the nil pointer. *)
Record Error := { Errors : list string }.

(** [multierror.Append(merrs, err)] for a non-nil plain [err]. *)
Definition Append (merrs : option Error) (err : string) : option Error :=
  match merrs with
  | None => Some {| Errors := [err] |}
  | Some m => Some {| Errors := Errors m ++ [err] |}
  end.

(** [merrs.ErrorOrNil()]. *)
Definition ErrorOrNil (merrs : option Error) : option Error :=
  match merrs with
  | None => None
  | Some m => match Errors m with [] => None | _ => Some m end
  end.

End Multierror.

(** ** The host *)

(** What a system call answers: a value, or the text of the error. *)
Inductive answer (A : Type) : Type :=
| Value (a : A)
| Errno (msg : string).

Arguments Value {A} a.
Arguments Errno {A} msg.

(** What the operating system of a host answers.  [clock_hz] is the frequency
    the cores of the host really run at, [wall_clock] the current time in
    nanoseconds. *)
Record Host := {
  sysctl_string : string -> answer string;
  sysctl_uint32 : string -> answer Z;
  logical_cpus : answer Z;
  physical_cpus : answer Z;
  wall_clock : Z;
  clock_hz : Z
}.

Module Unix.

(** [unix.Sysctl(name)]: the value, or the empty string and an error. *)
Definition Sysctl (h : Host) (name : string) : string * Go.error :=
  match sysctl_string h name with
  | Value v => (v, None)
  | Errno msg => (EmptyString, Some msg)
  end.

(** [unix.SysctlUint32(name)]: the value, or 0 and an error. *)
Definition SysctlUint32 (h : Host) (name : string) : Z * Go.error :=
  match sysctl_uint32 h name with
  | Value v => (Go.wrap_uint32 v, None)
  | Errno msg => (0, Some msg)
  end.

End Unix.

Module Cpu.

(** gopsutil's [cpu.Counts(logical)]: the count, or 0 and an error. *)
Definition Counts (h : Host) (logical : bool) : Z * Go.error :=
  match (if logical then logical_cpus h else physical_cpus h) with
  | Value n => (Go.wrap_int n, None)
  | Errno msg => (0, Some msg)
  end.

End Cpu.

(** ** Package stats *)

Module Stats.

Import Context.

(** cpuInfoTimeout is the timeout used when gathering CPU info. *)
Definition cpuInfoTimeout : Time.Duration := 60 * Time.Second.

Record InfoStat := {
  CPU : Z;
  VendorID : string;
  Family : string;
  Model : string;
  Stepping : Z;
  PhysicalID : string;
  CoreID : string;
  Cores : Z;
  ModelName : string;
  Mhz : float64;
  CacheSize : Z;
  Flags : list string;
  Microcode : string
}.

(** The flags a sysctl entry contributes: its fields in lower case when the
    entry could be read, nothing otherwise. *)
Definition appendFlags (flags : list string) (r : string * Go.error)
  : list string :=
  match snd r with
  | None => flags ++ map Go.ToLower (Go.Fields (fst r))
  | Some _ => flags
  end.

Definition InfoWithContext (ctx : Context) (h : Host)
  : list InfoStat * Go.error :=
  let ret : list InfoStat := [] in
  let '(modelName, _) := Unix.Sysctl h "machdep.cpu.brand_string" in
  let '(family, _) := Unix.SysctlUint32 h "machdep.cpu.family" in
  let '(model, _) := Unix.SysctlUint32 h "machdep.cpu.model" in
  let '(stepping, _) := Unix.SysctlUint32 h "machdep.cpu.stepping" in
  let flags : list string := [] in
  let flags := appendFlags flags (Unix.Sysctl h "machdep.cpu.features") in
  let flags :=
    appendFlags flags (Unix.Sysctl h "machdep.cpu.leaf7_features") in
  let flags := appendFlags flags (Unix.Sysctl h "machdep.cpu.extfeatures") in
  let '(cores, _) := Unix.SysctlUint32 h "machdep.cpu.core_count" in
  let '(cacheSize, _) := Unix.SysctlUint32 h "machdep.cpu.cache.size" in
  let '(vendorID, _) := Unix.Sysctl h "machdep.cpu.vendor" in
  let cpuFrequency := 3200000000 in
  let c := {|
    CPU := 0;
    VendorID := vendorID;
    Family := Go.FormatUint10 family;
    Model := Go.FormatUint10 model;
    Stepping := Go.int32_of_uint32 stepping;
    PhysicalID := EmptyString;
    CoreID := EmptyString;
    Cores := Go.int32_of_uint32 cores;
    ModelName := modelName;
    Mhz := div (of_int cpuFrequency) (of_int 1000000);
    CacheSize := Go.int32_of_uint32 cacheSize;
    Flags := flags;
    Microcode := EmptyString
  |} in
  (ret ++ [c], None).

(** *** Package variables *)

(** [onceLer] holds the done flag of the [sync.Once]. *)
Record Globals := {
  cpuMhzPerCore : float64;
  cpuModelName : string;
  cpuNumCores : Z;
  cpuTotalTicks : float64;
  initErr : option Multierror.Error;
  onceLer : bool
}.

(** The variables as the Go runtime initialises them. *)
Definition zeroGlobals : Globals := {|
  cpuMhzPerCore := zero;
  cpuModelName := EmptyString;
  cpuNumCores := 0;
  cpuTotalTicks := zero;
  initErr := None;
  onceLer := false
|}.

Definition set_cpuMhzPerCore (v : float64) (g : Globals) : Globals :=
  {| cpuMhzPerCore := v; cpuModelName := cpuModelName g;
     cpuNumCores := cpuNumCores g; cpuTotalTicks := cpuTotalTicks g;
     initErr := initErr g; onceLer := onceLer g |}.

Definition set_cpuModelName (v : string) (g : Globals) : Globals :=
  {| cpuMhzPerCore := cpuMhzPerCore g; cpuModelName := v;
     cpuNumCores := cpuNumCores g; cpuTotalTicks := cpuTotalTicks g;
     initErr := initErr g; onceLer := onceLer g |}.

Definition set_cpuNumCores (v : Z) (g : Globals) : Globals :=
  {| cpuMhzPerCore := cpuMhzPerCore g; cpuModelName := cpuModelName g;
     cpuNumCores := v; cpuTotalTicks := cpuTotalTicks g;
     initErr := initErr g; onceLer := onceLer g |}.

Definition set_cpuTotalTicks (v : float64) (g : Globals) : Globals :=
  {| cpuMhzPerCore := cpuMhzPerCore g; cpuModelName := cpuModelName g;
     cpuNumCores := cpuNumCores g; cpuTotalTicks := v;
     initErr := initErr g; onceLer := onceLer g |}.

Definition set_initErr (v : option Multierror.Error) (g : Globals)
  : Globals :=
  {| cpuMhzPerCore := cpuMhzPerCore g; cpuModelName := cpuModelName g;
     cpuNumCores := cpuNumCores g; cpuTotalTicks := cpuTotalTicks g;
     initErr := v; onceLer := onceLer g |}.

Definition set_onceLer (v : bool) (g : Globals) : Globals :=
  {| cpuMhzPerCore := cpuMhzPerCore g; cpuModelName := cpuModelName g;
     cpuNumCores := cpuNumCores g; cpuTotalTicks := cpuTotalTicks g;
     initErr := initErr g; onceLer := v |}.

(** *** Computations over the package variables *)

(** The probes a computation called, in order. *)
Inductive Call :=
| CallCounts (logical : bool)
| CallInfoWithContext (ctx : Context).

Definition Prog (A : Type) : Type := Globals -> A * Globals * list Call.

Definition ret {A} (a : A) : Prog A := fun g => (a, g, []).

Definition bind {A B} (m : Prog A) (f : A -> Prog B) : Prog B :=
  fun g =>
    let '(a, g1, t1) := m g in
    let '(b, g2, t2) := f a g1 in
    (b, g2, t1 ++ t2).

Definition get {A} (field : Globals -> A) : Prog A :=
  fun g => (field g, g, []).

Definition assign {A} (set : A -> Globals -> Globals) (v : A) : Prog unit :=
  fun g => (tt, set v g, []).

Definition call {A} (c : Call) (result : A) : Prog A :=
  fun g => (result, g, [c]).

Definition result {A} (r : A * Globals * list Call) : A := fst (fst r).
Definition globals {A} (r : A * Globals * list Call) : Globals :=
  snd (fst r).
Definition calls {A} (r : A * Globals * list Call) : list Call := snd r.

Declare Scope prog_scope.
Delimit Scope prog_scope with prog.
Notation "x <- m ;; k" := (bind m (fun x => k))
  (at level 61, m at next level, right associativity) : prog_scope.
Notation "m ;; k" := (bind m (fun _ => k))
  (at level 61, right associativity) : prog_scope.
Open Scope prog_scope.

(** [once.Do(f)]: runs [f] unless an earlier call already did, and marks the
    Once as done when [f] returns. *)
Definition Once_Do (f : Prog unit) : Prog unit :=
  fun g =>
    if onceLer g then (tt, g, [])
    else let '(_, g', t) := f g in (tt, set_onceLer true g', t).

Section Probes.

(** The wall clock and the two probes [Init] calls. *)
Variable now : Z.
Variable probeCounts : bool -> Z * Go.error.
Variable probeInfo : Context -> list InfoStat * Go.error.

(** The function literal [Init] hands to [onceLer.Do].  The deferred
    [cancel()] releases the timer of the context and changes no variable
    of the package. *)
Definition initOnce : Prog unit :=
  let merrs : option Multierror.Error := None in
  r <- call (CallCounts true) (probeCounts true) ;;
  assign set_cpuNumCores (fst r) ;;
  let merrs :=
    match snd r with
    | Some err =>
        Multierror.Append merrs
          (Go.Errorf
             "Unable to determine the number of CPU cores available: " err)
    | None => merrs
    end in
  let ctx := WithTimeout Background cpuInfoTimeout now in
  i <- call (CallInfoWithContext ctx) (probeInfo ctx) ;;
  let cpuInfo := fst i in
  let merrs :=
    match snd i with
    | Some err =>
        Multierror.Append merrs
          (Go.Errorf "Unable to obtain CPU information: " err)
    | None => merrs
    end in
  match cpuInfo with
  | cpu :: _ =>
      assign set_cpuModelName (ModelName cpu) ;;
      assign set_cpuMhzPerCore (Mhz cpu)
  | [] => ret tt
  end ;;
  mhz <- get cpuMhzPerCore ;;
  assign set_cpuMhzPerCore (Floor mhz) ;;
  cores <- get cpuNumCores ;;
  mhz <- get cpuMhzPerCore ;;
  assign set_cpuTotalTicks (Floor (mul (of_int cores) mhz)) ;;
  assign set_initErr (Multierror.ErrorOrNil merrs).

Definition InitWith : Prog (option Multierror.Error) :=
  Once_Do initOnce ;;
  get initErr.

End Probes.

(** [Init] on a host: the probes are gopsutil's [cpu.Counts] and the
    [InfoWithContext] of this package. *)
Definition Init (h : Host) : Prog (option Multierror.Error) :=
  InitWith (wall_clock h) (Cpu.Counts h) (fun ctx => InfoWithContext ctx h).

(** CPUNumCores returns the number of CPU cores available *)
Definition CPUNumCores : Prog Z := get cpuNumCores.

(** CPUMHzPerCore returns the MHz per CPU core *)
Definition CPUMHzPerCore : Prog float64 := get cpuMhzPerCore.

(** CPUModelName returns the model name of the CPU *)
Definition CPUModelName : Prog string := get cpuModelName.

(** TotalTicksAvailable calculates the total Mhz available across all cores *)
Definition TotalTicksAvailable : Prog float64 := get cpuTotalTicks.

End Stats.

(** ** Closed forms of what [initOnce] computes *)

Module StatsView.

Import Context Stats.

(** The model name and clock speed [initOnce] reads from what the CPU-info
    probe returned: those of the first entry, or the values the package
    variables already hold when there is none. *)
Definition firstModelName (cpuInfo : list InfoStat) (g : Globals) : string :=
  match cpuInfo with cpu :: _ => ModelName cpu | [] => cpuModelName g end.

Definition firstMhz (cpuInfo : list InfoStat) (g : Globals) : float64 :=
  match cpuInfo with cpu :: _ => Mhz cpu | [] => cpuMhzPerCore g end.

Definition coresMessage (err : string) : string :=
  Go.Errorf "Unable to determine the number of CPU cores available: " err.

Definition infoMessage (err : string) : string :=
  Go.Errorf "Unable to obtain CPU information: " err.

(** The errors [initOnce] has collected after the two probes answered. *)
Definition collected (ec ei : Go.error) : option Multierror.Error :=
  let merrs :=
    match ec with
    | Some err => Multierror.Append None (coresMessage err)
    | None => None
    end in
  match ei with
  | Some err => Multierror.Append merrs (infoMessage err)
  | None => merrs
  end.

(** The feature flags [InfoWithContext] gathers on a host. *)
Definition probedFlags (h : Host) : list string :=
  appendFlags
    (appendFlags
       (appendFlags [] (Unix.Sysctl h "machdep.cpu.features"))
       (Unix.Sysctl h "machdep.cpu.leaf7_features"))
    (Unix.Sysctl h "machdep.cpu.extfeatures").

(** The context [initOnce] builds at time [now]. *)
Definition probeContext (now : Z) : Context :=
  WithTimeout Background cpuInfoTimeout now.

(** The total compute ticks of a host with [cores] cores whose probe
    reported [rawMhz]. *)
Definition computeTicks (cores : Z) (rawMhz : float64) : float64 :=
  Floor (mul (of_int cores) (Floor rawMhz)).

(** Successive calls of [Init], each on the host as it is at that time. *)
Fixpoint InitAll (hs : list Host) : Prog (list (option Multierror.Error)) :=
  match hs with
  | [] => ret []
  | h :: rest =>
      bind (Init h) (fun e =>
      bind (InitAll rest) (fun es => ret (e :: es)))
  end.

End StatsView.

(** ** Evaluations *)

Inductive EvalStatus :=
| pending | blocked | complete | failed | canceled.

(** Modelled from the spec: the Evaluation record of the data model (the
    repository's [structs.Evaluation] is not among the sources); the fields
    the broker and the list endpoint read. *)
Record Evaluation := {
  ID : string;
  Priority : Z;
  Type_ : string;
  TriggeredBy : string;
  JobID : string;
  Status : EvalStatus;
  CreateIndex : Z;
  ModifyIndex : Z
}.

Definition set_Status (s : EvalStatus) (e : Evaluation) : Evaluation :=
  {| ID := ID e; Priority := Priority e; Type_ := Type_ e;
     TriggeredBy := TriggeredBy e; JobID := JobID e; Status := s;
     CreateIndex := CreateIndex e; ModifyIndex := ModifyIndex e |}.

(** ** The evaluation broker *)

Module Broker.

(** Modelled from the spec: the order of the broker's queue, keyed by
    (Priority descending, CreateIndex ascending).  [before a b] holds when
    [a] may be handed out before [b]. *)
Definition before (a b : Evaluation) : bool :=
  (Priority b <? Priority a)
  || ((Priority a =? Priority b) && (CreateIndex a <=? CreateIndex b)).

(** Modelled from the spec: the state of the evaluation broker (the
    repository's [nomad/eval_broker.go] is not among the sources): the
    priority-ordered queue of evaluations waiting, the evaluations in
    flight with their hand-off tokens, the evaluations it canceled, and the
    next token. *)
Record Broker := {
  ready : list Evaluation;
  unack : list (Evaluation * nat);
  dropped : list Evaluation;
  nextToken : nat
}.

Definition empty : Broker :=
  {| ready := []; unack := []; dropped := []; nextToken := 0 |}.

Definition sameJob (e x : Evaluation) : bool := String.eqb (JobID x) (JobID e).

Definition otherJob (e x : Evaluation) : bool := negb (sameJob e x).

(** Insertion at the place the key assigns: after every evaluation that
    goes before [e]. *)
Fixpoint insert (e : Evaluation) (q : list Evaluation) : list Evaluation :=
  match q with
  | [] => [e]
  | x :: rest => if before x e then x :: insert e rest else e :: x :: rest
  end.

(** Modelled from the spec: [Enqueue(eval)] of the broker contract (section
    4.2).  Evaluations of the same job that are queued or in flight are
    superseded: they become canceled and leave the broker; the new
    evaluation is inserted by its key. *)
Definition Enqueue (e : Evaluation) (b : Broker) : Broker :=
  let superseded :=
    filter (sameJob e) (ready b) ++ filter (sameJob e) (map fst (unack b)) in
  {| ready := insert e (filter (otherJob e) (ready b));
     unack := filter (fun p => otherJob e (fst p)) (unack b);
     dropped := dropped b ++ map (set_Status canceled) superseded;
     nextToken := nextToken b |}.

Definition eligible (schedulerTypes : list string) (e : Evaluation) : bool :=
  existsb (String.eqb (Type_ e)) schedulerTypes.

(** The first evaluation of the queue a worker for [schedulerTypes] may
    take, and the queue without it. *)
Fixpoint take (schedulerTypes : list string) (q : list Evaluation)
  : option (Evaluation * list Evaluation) :=
  match q with
  | [] => None
  | x :: rest =>
      if eligible schedulerTypes x then Some (x, rest)
      else match take schedulerTypes rest with
           | Some (e, rest') => Some (e, x :: rest')
           | None => None
           end
  end.

(** Modelled from the spec: [Dequeue(schedulerTypes, timeout)] of the broker
    contract (section 4.2), at the moment it returns: the first eligible
    evaluation in queue order with a fresh token, now in flight; or nothing
    ([ok = false]) when the timeout elapsed with no eligible evaluation. *)
Definition Dequeue (schedulerTypes : list string) (b : Broker)
  : option (Evaluation * nat) * Broker :=
  match take schedulerTypes (ready b) with
  | Some (e, rest) =>
      (Some (e, nextToken b),
       {| ready := rest;
          unack := unack b ++ [(e, nextToken b)];
          dropped := dropped b;
          nextToken := S (nextToken b) |})
  | None => (None, b)
  end.

Definition EnqueueAll (evals : list Evaluation) (b : Broker) : Broker :=
  fold_left (fun b e => Enqueue e b) evals b.

(** [calls] successive calls of [Dequeue], stopping at the first that
    returns nothing: the evaluations handed out, in order. *)
Fixpoint DequeueN (calls : nat) (schedulerTypes : list string) (b : Broker)
  : list Evaluation * Broker :=
  match calls with
  | O => ([], b)
  | S k =>
      match Dequeue schedulerTypes b with
      | (Some (e, _), b') =>
          let '(out, b'') := DequeueN k schedulerTypes b' in (e :: out, b'')
      | (None, b') => ([], b')
      end
  end.

(** The evaluations that remain after a sequence of enqueues: each new one
    removes the earlier ones of its job. *)
Definition survivors (evals : list Evaluation) : list Evaluation :=
  fold_left (fun acc e => e :: filter (otherJob e) acc) evals [].

(** [a] has the higher priority, or the same priority and was not created
    later. *)
Definition goesBefore (a b : Evaluation) : Prop :=
  Priority b < Priority a
  \/ (Priority a = Priority b /\ CreateIndex a <= CreateIndex b).

(** Non-increasing priority, ties by ascending CreateIndex: every
    evaluation of the list goes before all that follow it. *)
Definition inQueueOrder (l : list Evaluation) : Prop :=
  StronglySorted goesBefore l.

End Broker.

(** ** The evaluations list endpoint *)

Module EvalEndpoint.

(** The value of a hexadecimal digit (0-9a-f). *)
Definition hexValue (c : ascii) : option Z :=
  let n := Z.of_nat (nat_of_ascii c) in
  if (48 <=? n) && (n <=? 57) then Some (n - 48)
  else if (97 <=? n) && (n <=? 102) then Some (n - 87)
  else None.

Definition isHex (c : ascii) : bool :=
  match hexValue c with Some _ => true | None => false end.

Fixpoint allHex (s : string) : bool :=
  match s with
  | EmptyString => true
  | String c r => isHex c && allHex r
  end.

(** Modelled from the spec: the decoding of the prefix parameter to bytes
    (the handler, [command/agent/eval_endpoint.go], is not among the
    sources; the API documentation says the value is decoded to bytes and
    must have an even number of hexadecimal characters). *)
Fixpoint decodeHex (s : string) : option (list Z) :=
  match s with
  | EmptyString => Some []
  | String _ EmptyString => None
  | String a (String b r) =>
      match hexValue a, hexValue b, decodeHex r with
      | Some x, Some y, Some bytes => Some (16 * x + y :: bytes)
      | _, _, _ => None
      end
  end.

Fixpoint dropDashes (s : string) : string :=
  match s with
  | EmptyString => EmptyString
  | String c r =>
      if Ascii.eqb c "-"%char then dropDashes r else String c (dropDashes r)
  end.

Fixpoint isPrefix (p l : list Z) : bool :=
  match p, l with
  | [], _ => true
  | x :: p', y :: l' => (x =? y) && isPrefix p' l'
  | _ :: _, [] => false
  end.

(** An evaluation matches when the bytes of its ID start with the bytes of
    the prefix. *)
Definition hasIDPrefix (bytes : list Z) (e : Evaluation) : bool :=
  match decodeHex (dropDashes (ID e)) with
  | Some idBytes => isPrefix bytes idBytes
  | None => false
  end.

(** Modelled from the spec: the query parameters of the list endpoint that
    select evaluations (section 6). *)
Record ListRequest := {
  prefix : string;
  job : string;
  status : string
}.

Definition parseStatus (s : string) : option (option EvalStatus) :=
  if String.eqb s "" then Some None
  else if String.eqb s "blocked" then Some (Some blocked)
  else if String.eqb s "pending" then Some (Some pending)
  else if String.eqb s "complete" then Some (Some complete)
  else if String.eqb s "failed" then Some (Some failed)
  else if String.eqb s "canceled" then Some (Some canceled)
  else None.

(** A request that passed the boundary. *)
Record Query := {
  idPrefix : list Z;
  jobFilter : string;
  statusFilter : option EvalStatus
}.

Definition statusEqb (a b : EvalStatus) : bool :=
  match a, b with
  | pending, pending | blocked, blocked | complete, complete
  | failed, failed | canceled, canceled => true
  | _, _ => false
  end.

Definition selects (q : Query) (e : Evaluation) : bool :=
  hasIDPrefix (idPrefix q) e
  && (String.eqb (jobFilter q) "" || String.eqb (jobFilter q) (JobID e))
  && match statusFilter q with
     | Some s => statusEqb s (Status e)
     | None => true
     end.

Inductive Response :=
| ClientError (msg : string)
| OK (evals : list Evaluation).

(** What lies behind the boundary (store, broker, scheduler) sees of a
    request. *)
Inductive CoreCall :=
| ListEvals (q : Query).

(** Modelled from the spec: the boundary check of the list endpoint
    (section 7, malformed client input). *)
Definition validate (r : ListRequest) : string + Query :=
  match decodeHex (prefix r) with
  | None => inl "prefix must have an even number of hexadecimal characters"%string
  | Some bytes =>
      match parseStatus (status r) with
      | None => inl "unknown status"%string
      | Some st =>
          inr {| idPrefix := bytes; jobFilter := job r; statusFilter := st |}
      end
  end.

(** Modelled from the spec: GET /v1/evaluations over the evaluations of the
    store: the response, and the calls that went past the boundary. *)
Definition listEvaluations (store : list Evaluation) (r : ListRequest)
  : Response * list CoreCall :=
  match validate r with
  | inl msg => (ClientError msg, [])
  | inr q => (OK (filter (selects q) store), [ListEvals q])
  end.

End EvalEndpoint.

(** ** Sample hosts and probe answers *)

Module Samples.

Import Stats.

Definition noEntry {A} : answer A := Errno "no such file or directory".

(** An eight-core host that answers the brand string, the vendor and the
    feature flags, and whose cores run at 2.4 GHz. *)
Definition hostA : Host := {|
  sysctl_string := fun name =>
    if String.eqb name "machdep.cpu.brand_string" then Value "Apple M1"%string
    else if String.eqb name "machdep.cpu.vendor" then Value "Apple"%string
    else if String.eqb name "machdep.cpu.features"
         then Value "FPU VME  SSE4.2"%string
    else noEntry;
  sysctl_uint32 := fun name =>
    if String.eqb name "machdep.cpu.core_count" then Value 8 else noEntry;
  logical_cpus := Value 8;
  physical_cpus := Value 8;
  wall_clock := 1700000000000000000;
  clock_hz := 2400000000
|}.

(** A host on which every sysctl fails, the core count included. *)
Definition hostSilent : Host := {|
  sysctl_string := fun _ => noEntry;
  sysctl_uint32 := fun _ => noEntry;
  logical_cpus := Errno "operation not permitted";
  physical_cpus := Errno "operation not permitted";
  wall_clock := 1700000000000000000;
  clock_hz := 3200000000
|}.

Definition cpuWithMhz (name : string) (mhz : float64) : InfoStat := {|
  CPU := 0; VendorID := EmptyString; Family := EmptyString;
  Model := EmptyString; Stepping := 0; PhysicalID := EmptyString;
  CoreID := EmptyString; Cores := 4; ModelName := name; Mhz := mhz;
  CacheSize := 0; Flags := []; Microcode := EmptyString
|}.

(** 3200.25 and 3200.75 MHz. *)
Definition mhzLow : float64 := div (of_int 12801) (of_int 4).
Definition mhzHigh : float64 := div (of_int 12803) (of_int 4).

(** Probe answers: a core-count probe that fails or succeeds, an info probe
    that fails or succeeds. *)
Definition countsFail (_ : bool) : Z * Go.error :=
  (0, Some "sysctl failed"%string).
Definition countsFour (_ : bool) : Z * Go.error := (4, None).
Definition infoFail (_ : Context.Context) : list InfoStat * Go.error :=
  ([], Some "timed out"%string).
Definition infoLow (_ : Context.Context) : list InfoStat * Go.error :=
  ([cpuWithMhz "Xeon" mhzLow], None).
Definition infoHigh (_ : Context.Context) : list InfoStat * Go.error :=
  ([cpuWithMhz "Xeon" mhzHigh], None).

(** The variables of a process that ran on a different machine image:
    stale values, [Init] not yet called. *)
Definition staleGlobals : Globals := {|
  cpuMhzPerCore := of_int 1000;
  cpuModelName := "stale";
  cpuNumCores := 2;
  cpuTotalTicks := of_int 2000;
  initErr := None;
  onceLer := false
|}.

End Samples.

(** ** The specified clock-speed property *)

(** The per-core MHz of the fingerprint is the floor of the clock frequency of
    the host, in MHz. *)
Definition MHzReflectsHostClock : Prop :=
  forall h : Host,
    Stats.result
      (Stats.CPUMHzPerCore (Stats.globals (Stats.Init h Stats.zeroGlobals)))
    = Floor (div (of_int (clock_hz h)) (of_int 1000000)).

Module EvalSamples.

Definition mkEval (id : string) (priority : Z) (type job : string)
           (createIndex : Z) : Evaluation :=
  {| ID := id; Priority := priority; Type_ := type;
     TriggeredBy := "job-register"; JobID := job; Status := pending;
     CreateIndex := createIndex; ModifyIndex := createIndex |}.

Definition evalLow : Evaluation :=
  mkEval "5456bd7a-9fc0-c0dd-6131-cbee77f57577" 20 "batch" "report" 53.
Definition evalLate : Evaluation :=
  mkEval "25ba81c1-0000-4000-8000-000000000002" 50 "service" "web" 61.
Definition evalEarly : Evaluation :=
  mkEval "25ba81c1-0000-4000-8000-000000000003" 50 "service" "cache" 54.
Definition evalHigh : Evaluation :=
  mkEval "a8198d79-cfdb-6593-a999-1e9adabcba2e" 70 "service" "db" 90.

(** Enqueued out of order. *)
Definition arrivals : list Evaluation :=
  [evalLow; evalLate; evalHigh; evalEarly].

Definition allTypes : list string := ["service"; "batch"; "system"]%string.

Definition request (p : string) : EvalEndpoint.ListRequest :=
  {| EvalEndpoint.prefix := p; EvalEndpoint.job := "";
     EvalEndpoint.status := "" |}.

End EvalSamples.

(** ** Mantissas and characters *)

Module Bits.

(** The number of binary digits of a mantissa. *)
Definition digits (p : positive) : Z := Zpos (digits2_pos p).

(** A mantissa shifted to the left by [k] binary places. *)
Definition shl (p : positive) (k : Z) : positive :=
  match k with Zpos n => Pos.iter xO p n | _ => p end.

End Bits.

Module Text.

(** An ASCII capital letter. *)
Definition isUpper (c : ascii) : bool :=
  let n := nat_of_ascii c in ((65 <=? n) && (n <=? 90))%nat.

Fixpoint allChars (ok : ascii -> bool) (s : string) : bool :=
  match s with
  | EmptyString => true
  | String c r => ok c && allChars ok r
  end.

Definition notSpace (c : ascii) : bool := negb (Go.isSpace c).

Definition flagChar (c : ascii) : bool :=
  negb (Go.isSpace c) && negb (isUpper c).

(** A flag as [InfoWithContext] stores it: not empty, no white space, no
    capital letter. *)
Definition normalFlag (f : string) : bool :=
  negb (String.eqb f EmptyString) && allChars flagChar f.

(** A byte below 128, and a string of such bytes. *)
Definition asciiChar (c : ascii) : bool := (nat_of_ascii c <? 128)%nat.

Definition isAscii (s : string) : bool := allChars asciiChar s.

(** The sysctl entry [name] of the host holds ASCII text, or cannot be
    read. *)
Definition asciiEntry (h : Host) (name : string) : bool :=
  match sysctl_string h name with
  | Value v => isAscii v
  | Errno _ => true
  end.

End Text.

(** ** The job client status summary component of the UI *)

Module JobClientStatusSummary.

(** How the evaluation of a JavaScript expression ends: with a value, or by
    throwing. *)
Inductive completion (A : Type) : Type :=
| Normal (a : A)
| Throw (msg : string).

Arguments Normal {A} a.
Arguments Throw {A} msg.

(** [window.localStorage]: the string stored under a key, if any. *)
Definition Storage := string -> option string.

Definition emptyStorage : Storage := fun _ => None.

(** An assignment [localStorage.key = text]. *)
Definition store (ls : Storage) (key text : string) : Storage :=
  fun k => if String.eqb k key then Some text else ls k.

Definition storageKey : string := "nomadExpandJobClientStatusSummary".

Section Component.

(** The JavaScript values, with the booleans among them; the conversion to
    string that a Storage applies to what is assigned to it; [JSON.parse]. *)
Variable value : Type.
Variable ofBool : bool -> value.
Variable ToString : value -> string.
Variable JSON_parse : string -> completion value.

(** The component as far as [isExpanded] goes: the value the computed
    property has cached, if it was computed since the last change
    notification. *)
Record Component := { isExpandedCache : option value }.

Definition create : Component := {| isExpandedCache := None |}.

(** The body of the getter [isExpanded]: a key that was never assigned reads
    as undefined, which [!= null] treats as null. *)
Definition computeIsExpanded (ls : Storage) : completion value :=
  let storageValue := ls storageKey in
  match storageValue with
  | Some text => JSON_parse text
  | None => Normal (ofBool true)
  end.

(** Reading the computed property [isExpanded]: the cached value if there is
    one, else the getter runs and its value, if any, is cached. *)
Definition isExpanded (ls : Storage) (c : Component)
  : completion value * Component :=
  match isExpandedCache c with
  | Some v => (Normal v, c)
  | None =>
      match computeIsExpanded ls with
      | Normal v => (Normal v, {| isExpandedCache := Some v |})
      | Throw msg => (Throw msg, c)
      end
  end.

(** [persist(item, isOpen)]: the assignment to the storage, then
    [notifyPropertyChange('isExpanded')], which drops the cached value. *)
Definition persist (item isOpen : value) (ls : Storage) (c : Component)
  : Storage * Component :=
  (store ls storageKey (ToString isOpen), {| isExpandedCache := None |}).

(** A boolean converts to the string "true" or "false", and [JSON.parse]
    reads the two literals back. *)
Definition booleansRoundTrip : Prop :=
  (forall b : bool,
     ToString (ofBool b) = if b then "true"%string else "false"%string)
  /\ JSON_parse "true" = Normal (ofBool true)
  /\ JSON_parse "false" = Normal (ofBool false).

End Component.

Arguments isExpandedCache {value} c.
Arguments create {value}.

End JobClientStatusSummary.

(** Sample JavaScript values: booleans, null and strings, with their string
    conversion and the parse of the three JSON literals. *)
Module JsSample.

Import JobClientStatusSummary.

Inductive value :=
| JsBool (b : bool)
| JsNull
| JsString (s : string).

Definition ToString (v : value) : string :=
  match v with
  | JsBool true => "true"
  | JsBool false => "false"
  | JsNull => "null"
  | JsString s => s
  end.

Definition parseLiteral (text : string) : completion value :=
  if String.eqb text "true" then Normal (JsBool true)
  else if String.eqb text "false" then Normal (JsBool false)
  else if String.eqb text "null" then Normal JsNull
  else Throw "SyntaxError".

(** A storage someone filled with text that is not JSON. *)
Definition brokenStorage : Storage := store emptyStorage storageKey "yes".

End JsSample.

Module MoreSamples.

(** A host that reports a cache of 3 GiB and 128 logical CPUs. *)
Definition hostBig : Host := {|
  sysctl_string := fun name =>
    if String.eqb name "machdep.cpu.features"
    then Value "FPU  SSE4.2	AVX1.0 "%string
    else if String.eqb name "machdep.cpu.extfeatures"
    then Value "SYSCALL XD"%string
    else Samples.noEntry;
  sysctl_uint32 := fun name =>
    if String.eqb name "machdep.cpu.cache.size" then Value 3221225472
    else Samples.noEntry;
  logical_cpus := Value 128;
  physical_cpus := Value 64;
  wall_clock := 1700000000000000000;
  clock_hz := 3000000000
|}.

Definition infoTwo (_ : Context.Context) : list Stats.InfoStat * Go.error :=
  ([Samples.cpuWithMhz "Xeon" Samples.mhzLow;
    Samples.cpuWithMhz "Epyc" Samples.mhzHigh], None).

Definition infoNone (_ : Context.Context) : list Stats.InfoStat * Go.error :=
  ([], None).

End MoreSamples.

Module Decimal.

(** The number a decimal numeral denotes, if the string is one. *)
Definition readDecimal (s : string) : option Z :=
  option_map (fun d => Z.of_N (N.of_uint d)) (NilZero.uint_of_string s).

End Decimal.

(** * Properties of the CPU fingerprint *)

Module StatsFacts.

Import Context Stats StatsView.

Ltac run_prog :=
  unfold InitWith, Once_Do, initOnce, bind, call, assign, get, ret,
    CPUNumCores, CPUMHzPerCore, CPUModelName, TotalTicksAvailable,
    result, globals, calls.

(** The first call of [Init], in closed form. *)
Lemma InitWith_first now pc pi g :
  onceLer g = false ->
  InitWith now pc pi g =
    let r := pc true in
    let i := pi (probeContext now) in
    let mhz := Floor (firstMhz (fst i) g) in
    let err := Multierror.ErrorOrNil (collected (snd r) (snd i)) in
    (err,
     {| cpuMhzPerCore := mhz;
        cpuModelName := firstModelName (fst i) g;
        cpuNumCores := fst r;
        cpuTotalTicks := Floor (mul (of_int (fst r)) mhz);
        initErr := err;
        onceLer := true |},
     [CallCounts true; CallInfoWithContext (probeContext now)]).
Proof.
  intros Hdone. run_prog. rewrite Hdone. unfold probeContext.
  destruct (pc true) as [n ec].
  destruct (pi (WithTimeout Background cpuInfoTimeout now)) as [info ei].
  destruct info as [|cpu rest], ec, ei; reflexivity.
Qed.

(** A later call of [Init] returns the stored error and does nothing else. *)
Lemma InitWith_done now pc pi g :
  onceLer g = true ->
  InitWith now pc pi g = (initErr g, g, []).
Proof.
  intros Hdone. run_prog. rewrite Hdone. reflexivity.
Qed.

Lemma InitWith_sets_done now pc pi g :
  onceLer (globals (InitWith now pc pi g)) = true.
Proof.
  destruct (onceLer g) eqn:Hdone.
  - rewrite InitWith_done by assumption. exact Hdone.
  - rewrite InitWith_first by assumption. reflexivity.
Qed.

Lemma InitWith_result_stored now pc pi g :
  initErr (globals (InitWith now pc pi g)) = result (InitWith now pc pi g).
Proof.
  destruct (onceLer g) eqn:Hdone.
  - rewrite InitWith_done by assumption. reflexivity.
  - rewrite InitWith_first by assumption. reflexivity.
Qed.

(** [InfoWithContext] reports one CPU, never an error, and the clock speed
    it reports is the constant 3200 MHz. *)
Lemma InfoWithContext_shape ctx h :
  exists c,
    InfoWithContext ctx h = ([c], None)
    /\ Mhz c = of_int 3200
    /\ ModelName c = fst (Unix.Sysctl h "machdep.cpu.brand_string")
    /\ VendorID c = fst (Unix.Sysctl h "machdep.cpu.vendor")
    /\ CacheSize c
       = Go.int32_of_uint32
           (fst (Unix.SysctlUint32 h "machdep.cpu.cache.size"))
    /\ Cores c
       = Go.int32_of_uint32
           (fst (Unix.SysctlUint32 h "machdep.cpu.core_count"))
    /\ Flags c = probedFlags h.
Proof.
  unfold InfoWithContext, probedFlags.
  destruct (Unix.Sysctl h "machdep.cpu.brand_string") as [modelName e1].
  destruct (Unix.SysctlUint32 h "machdep.cpu.family") as [family e2].
  destruct (Unix.SysctlUint32 h "machdep.cpu.model") as [model e3].
  destruct (Unix.SysctlUint32 h "machdep.cpu.stepping") as [stepping e4].
  destruct (Unix.SysctlUint32 h "machdep.cpu.core_count") as [cores e5].
  destruct (Unix.SysctlUint32 h "machdep.cpu.cache.size") as [cacheSize e6].
  destruct (Unix.Sysctl h "machdep.cpu.vendor") as [vendorID e7].
  eexists. split; [reflexivity|]. split; [|repeat split].
  cbn [Mhz]. vm_compute. reflexivity.
Qed.

Lemma Floor_3200 : Floor (of_int 3200) = of_int 3200.
Proof. vm_compute. reflexivity. Qed.

(** C1.  After the first call of [Init] completes, whatever the two probes
    answered: the per-core MHz is the floor of the raw MHz of the first CPU
    the info probe reported, the core count is the one the core-count probe
    reported, and the total compute ticks are the floor of the product of
    the core count and the floored per-core MHz. *)
Theorem Init_total_ticks now pc pi g cpu rest err :
  onceLer g = false ->
  pi (probeContext now) = (cpu :: rest, err) ->
  let g' := globals (InitWith now pc pi g) in
  let rawMhz := Mhz cpu in
  result (CPUMHzPerCore g') = Floor rawMhz
  /\ result (CPUNumCores g') = fst (pc true)
  /\ result (TotalTicksAvailable g')
     = Floor (mul (of_int (result (CPUNumCores g'))) (Floor rawMhz)).
Proof.
  intros Hdone Hinfo. cbv zeta.
  rewrite InitWith_first by assumption. rewrite Hinfo.
  cbn. repeat split.
Qed.

Lemma Init_total_ticks_witness :
  let g' := globals (Init Samples.hostA zeroGlobals) in
  result (CPUMHzPerCore g') = of_int 3200
  /\ result (CPUNumCores g') = 8
  /\ result (TotalTicksAvailable g') = of_int 25600.
Proof.
  pose proof
    (Init_total_ticks (wall_clock Samples.hostA) (Cpu.Counts Samples.hostA)
       (fun ctx => InfoWithContext ctx Samples.hostA) zeroGlobals
       (hd (Samples.cpuWithMhz "" zero)
           (fst (InfoWithContext Background Samples.hostA)))
       [] None eq_refl eq_refl) as H.
  exact H.
Defined.

(** Once [Init] has run, any number of further calls change nothing. *)
Lemma InitAll_done hs : forall g,
  onceLer g = true ->
  InitAll hs g = (repeat (initErr g) (List.length hs), g, []).
Proof.
  induction hs as [|h rest IH]; intros g Hdone; [reflexivity|].
  cbn [InitAll]. unfold bind at 1. unfold Init.
  rewrite InitWith_done by assumption.
  unfold bind, ret. rewrite IH by assumption. reflexivity.
Qed.

(** C2.  In any sequence of calls of [Init], whatever the host answers at
    the time of each call: a call on a fresh Once performs the two probes
    once; every later call performs no probe, returns the very error value
    the first call returned (nil or not), and leaves all package variables
    as the first call left them. *)
Theorem Init_once h hs g :
  let first := Init h g in
  let later := InitAll hs (globals first) in
  (onceLer g = false ->
   calls first =
     [CallCounts true; CallInfoWithContext (probeContext (wall_clock h))])
  /\ calls later = []
  /\ List.length (result later) = List.length hs
  /\ Forall (fun e => e = result first) (result later)
  /\ globals later = globals first.
Proof.
  cbv zeta. unfold Init.
  pose proof (InitWith_sets_done (wall_clock h) (Cpu.Counts h)
                (fun ctx => InfoWithContext ctx h) g) as Hdone.
  pose proof (InitWith_result_stored (wall_clock h) (Cpu.Counts h)
                (fun ctx => InfoWithContext ctx h) g) as Hres.
  rewrite (InitAll_done hs _ Hdone). rewrite Hres.
  split; [|split; [|split; [|split]]].
  - intros Hfresh. rewrite InitWith_first by assumption. reflexivity.
  - reflexivity.
  - apply repeat_length.
  - apply Forall_forall. intros e He. apply repeat_spec in He. exact He.
  - reflexivity.
Qed.

Lemma Init_once_witness :
  calls (Init Samples.hostSilent zeroGlobals)
  = [CallCounts true;
     CallInfoWithContext (probeContext (wall_clock Samples.hostSilent))].
Proof.
  exact (proj1 (Init_once Samples.hostSilent
                  [Samples.hostA; Samples.hostA] zeroGlobals) eq_refl).
Defined.

(** C3.  The first call of [Init], for arbitrary answers of the two probes:
    it returns nil exactly when neither probe returned an error; when only
    the core-count probe fails the error holds that one cause while the
    model name and the floored MHz of the info probe are still stored; when
    the info probe fails the core count is still stored; when both fail the
    error holds both causes. *)
Theorem Init_aggregates_failures now pc pi g :
  onceLer g = false ->
  let ctx := probeContext now in
  let r := InitWith now pc pi g in
  (result r = None <-> snd (pc true) = None /\ snd (pi ctx) = None)
  /\ (forall e cpu rest,
        snd (pc true) = Some e -> pi ctx = (cpu :: rest, None) ->
        result r = Some {| Multierror.Errors := [coresMessage e] |}
        /\ cpuModelName (globals r) = ModelName cpu
        /\ cpuMhzPerCore (globals r) = Floor (Mhz cpu))
  /\ (forall e,
        snd (pi ctx) = Some e ->
        result r <> None /\ cpuNumCores (globals r) = fst (pc true))
  /\ (forall e1 e2,
        snd (pc true) = Some e1 -> snd (pi ctx) = Some e2 ->
        result r
        = Some {| Multierror.Errors := [coresMessage e1; infoMessage e2] |}).
Proof.
  intros Hdone. cbv zeta. rewrite InitWith_first by assumption. cbv zeta.
  unfold result, globals. cbn [fst snd cpuModelName cpuMhzPerCore cpuNumCores].
  destruct (pc true) as [n ec]. destruct (pi (probeContext now)) as [info ei].
  cbn [fst snd].
  split; [|split; [|split]].
  - destruct ec, ei; cbn; split; try discriminate; try tauto;
      intros [? ?]; discriminate.
  - intros e cpu rest -> Hi. inversion Hi; subst. cbn. auto.
  - intros e ->. split; [|reflexivity]. destruct ec; cbn; discriminate.
  - intros e1 e2 -> ->. reflexivity.
Qed.

Lemma Init_aggregates_failures_witness :
  (result (InitWith 0 Samples.countsFail Samples.infoLow zeroGlobals)
   = Some {| Multierror.Errors := [coresMessage "sysctl failed"] |}
   /\ cpuModelName
        (globals (InitWith 0 Samples.countsFail Samples.infoLow zeroGlobals))
      = "Xeon"%string
   /\ cpuMhzPerCore
        (globals (InitWith 0 Samples.countsFail Samples.infoLow zeroGlobals))
      = Floor Samples.mhzLow)
  /\ (result (InitWith 0 Samples.countsFour Samples.infoFail zeroGlobals)
      <> None
      /\ cpuNumCores
           (globals (InitWith 0 Samples.countsFour Samples.infoFail
                       zeroGlobals))
         = 4).
Proof.
  split.
  - exact (proj1 (proj2 (Init_aggregates_failures 0 Samples.countsFail
                           Samples.infoLow zeroGlobals eq_refl))
             "sysctl failed"%string (Samples.cpuWithMhz "Xeon" Samples.mhzLow)
             [] eq_refl eq_refl).
  - exact (proj1 (proj2 (proj2 (Init_aggregates_failures 0 Samples.countsFour
                                  Samples.infoFail zeroGlobals eq_refl)))
             "timed out"%string eq_refl).
Defined.

(** What [Init] stores on a host, by the first call. *)
Lemma Init_first h g :
  onceLer g = false ->
  Init h g =
    let r := Cpu.Counts h true in
    let err := Multierror.ErrorOrNil (collected (snd r) None) in
    (err,
     {| cpuMhzPerCore := of_int 3200;
        cpuModelName := fst (Unix.Sysctl h "machdep.cpu.brand_string");
        cpuNumCores := fst r;
        cpuTotalTicks := Floor (mul (of_int (fst r)) (of_int 3200));
        initErr := err;
        onceLer := true |},
     [CallCounts true; CallInfoWithContext (probeContext (wall_clock h))]).
Proof.
  intros Hdone. unfold Init. rewrite InitWith_first by assumption.
  cbv zeta.
  destruct (InfoWithContext_shape (probeContext (wall_clock h)) h)
    as (c & -> & Hmhz & Hname & _).
  cbn [fst snd firstMhz firstModelName]. rewrite Hmhz, Hname, Floor_3200.
  reflexivity.
Qed.

(** C4 as stated fails: on a host whose cores run at 2.4 GHz the per-core
    MHz after [Init] is 3200, not 2400. *)
Lemma MHz_ignores_host_clock :
  clock_hz Samples.hostA = 2400000000
  /\ Floor (div (of_int (clock_hz Samples.hostA)) (of_int 1000000))
     = of_int 2400
  /\ result (CPUMHzPerCore (globals (Init Samples.hostA zeroGlobals)))
     = of_int 3200
  /\ ~ MHzReflectsHostClock.
Proof.
  split; [reflexivity|]. split; [vm_compute; reflexivity|].
  split; [vm_compute; reflexivity|].
  intros H. specialize (H Samples.hostA). vm_compute in H. discriminate H.
Qed.

(** C4, amended.  After the first call of [Init] the per-core MHz is 3200 on
    every host, whatever its clock frequency: [InfoWithContext] derives it
    from the constant 3200000000 Hz.  What is probed is the core count
    (cpu.Counts), the model name (sysctl machdep.cpu.brand_string) and, in
    the entry [InfoWithContext] returns, the vendor ID, the cache size and the
    feature flags, each from its sysctl entry and empty or zero when the host
    does not answer. *)
Theorem Init_MHz_constant h g :
  onceLer g = false ->
  let g' := globals (Init h g) in
  result (CPUMHzPerCore g') = of_int 3200
  /\ div (of_int 3200000000) (of_int 1000000) = of_int 3200
  /\ result (CPUNumCores g') = fst (Cpu.Counts h true)
  /\ result (CPUModelName g')
     = fst (Unix.Sysctl h "machdep.cpu.brand_string")
  /\ exists c,
       InfoWithContext (probeContext (wall_clock h)) h = ([c], None)
       /\ Mhz c = of_int 3200
       /\ VendorID c = fst (Unix.Sysctl h "machdep.cpu.vendor")
       /\ CacheSize c
          = Go.int32_of_uint32
              (fst (Unix.SysctlUint32 h "machdep.cpu.cache.size"))
       /\ Flags c = probedFlags h.
Proof.
  intros Hdone. cbv zeta. rewrite Init_first by assumption.
  split; [reflexivity|]. split; [vm_compute; reflexivity|].
  split; [reflexivity|]. split; [reflexivity|].
  destruct (InfoWithContext_shape (probeContext (wall_clock h)) h)
    as (c & Hc & Hmhz & _ & Hvendor & Hcache & _ & Hflags).
  exists c. auto.
Qed.

Lemma Init_MHz_constant_witness :
  result (CPUMHzPerCore (globals (Init Samples.hostA zeroGlobals)))
  = of_int 3200.
Proof.
  exact (proj1 (Init_MHz_constant Samples.hostA zeroGlobals eq_refl)).
Defined.

(** The floor of a value as a float is the float of its integer floor,
    negative zero apart. *)
Lemma Floor_of_floor_int x k :
  floor_int x = Some k -> x <> S754_zero true -> Floor x = of_int k.
Proof.
  destruct x as [[|]| | |s m e]; cbn; intros Hk Hnz;
    try discriminate; try (now elim Hnz); inversion Hk; reflexivity.
Qed.

(** Raw clock speeds with the same integer floor give the same ticks. *)
Lemma computeTicks_same_floor cores m1 m2 k :
  floor_int m1 = Some k -> floor_int m2 = Some k ->
  m1 <> S754_zero true -> m2 <> S754_zero true ->
  computeTicks cores m1 = computeTicks cores m2.
Proof.
  intros H1 H2 Hz1 Hz2. unfold computeTicks.
  rewrite (Floor_of_floor_int m1 k), (Floor_of_floor_int m2 k) by assumption.
  reflexivity.
Qed.

Example computeTicks_jitter :
  floor_int Samples.mhzLow = Some 3200
  /\ floor_int Samples.mhzHigh = Some 3200
  /\ computeTicks 4 Samples.mhzLow = of_int 12800
  /\ computeTicks 4 Samples.mhzHigh = of_int 12800.
Proof. vm_compute. repeat split. Qed.

(** C5.  The ticks [Init] stores depend on the answers of the probes only
    through the core count and the floor of the raw MHz: two first calls of
    [Init] (in any two processes, whatever their variables held before and
    whatever else the probes answered) with equal core counts and raw MHz
    values that floor to the same integer store identical per-core MHz and
    identical total ticks, namely [computeTicks] of the inputs. *)
Theorem Init_ticks_stable now1 now2 pc1 pc2 pi1 pi2 g1 g2
        cpu1 rest1 err1 cpu2 rest2 err2 :
  onceLer g1 = false -> onceLer g2 = false ->
  pi1 (probeContext now1) = (cpu1 :: rest1, err1) ->
  pi2 (probeContext now2) = (cpu2 :: rest2, err2) ->
  fst (pc1 true) = fst (pc2 true) ->
  Floor (Mhz cpu1) = Floor (Mhz cpu2) ->
  let a := globals (InitWith now1 pc1 pi1 g1) in
  let b := globals (InitWith now2 pc2 pi2 g2) in
  cpuTotalTicks a = computeTicks (fst (pc1 true)) (Mhz cpu1)
  /\ cpuTotalTicks a = cpuTotalTicks b
  /\ cpuMhzPerCore a = cpuMhzPerCore b.
Proof.
  intros Hd1 Hd2 Hi1 Hi2 Hcores Hfloor. cbv zeta.
  rewrite !InitWith_first by assumption. rewrite Hi1, Hi2.
  unfold globals, computeTicks. cbn [fst snd cpuTotalTicks cpuMhzPerCore firstMhz].
  rewrite Hcores, Hfloor. repeat split.
Qed.

Lemma Init_ticks_stable_witness :
  Samples.mhzLow <> Samples.mhzHigh
  /\ cpuTotalTicks
       (globals (InitWith 0 Samples.countsFour Samples.infoLow zeroGlobals))
     = cpuTotalTicks
         (globals (InitWith 7 Samples.countsFour Samples.infoHigh
                     Samples.staleGlobals)).
Proof.
  split; [vm_compute; discriminate|].
  refine (proj1 (proj2 (Init_ticks_stable 0 7 Samples.countsFour
            Samples.countsFour Samples.infoLow Samples.infoHigh
            zeroGlobals Samples.staleGlobals
            (Samples.cpuWithMhz "Xeon" Samples.mhzLow) [] None
            (Samples.cpuWithMhz "Xeon" Samples.mhzHigh) [] None
            eq_refl eq_refl eq_refl eq_refl eq_refl _))).
  vm_compute. reflexivity.
Defined.

(** On every host, the first call of [Init] calls [InfoWithContext] once,
    with a context whose deadline lies exactly 60 seconds (60,000,000,000 ns)
    after the time of the call. *)
Lemma Init_info_deadline h g :
  onceLer g = false ->
  cpuInfoTimeout = 60 * 1000000000
  /\ exists ctx,
       calls (Init h g) = [CallCounts true; CallInfoWithContext ctx]
       /\ Deadline ctx = Some (wall_clock h + cpuInfoTimeout).
Proof.
  intros Hdone. split; [reflexivity|].
  exists (probeContext (wall_clock h)). split.
  - rewrite Init_first by assumption. reflexivity.
  - reflexivity.
Qed.

(** The answer of [InfoWithContext] does not depend on the context. *)
Lemma InfoWithContext_ignores_context ctx1 ctx2 h :
  InfoWithContext ctx1 h = InfoWithContext ctx2 h.
Proof. reflexivity. Qed.


(** C9.  Before [Init] was ever called the accessors return the zero values
    (0, +0.0, the empty string, +0.0); no accessor, in any state, calls a
    probe, changes a package variable or marks the Once as done. *)
Theorem accessors_before_Init :
  result (CPUNumCores zeroGlobals) = 0
  /\ result (CPUMHzPerCore zeroGlobals) = S754_zero false
  /\ result (CPUModelName zeroGlobals) = EmptyString
  /\ result (TotalTicksAvailable zeroGlobals) = S754_zero false
  /\ onceLer zeroGlobals = false
  /\ forall g,
       (calls (CPUNumCores g) = [] /\ globals (CPUNumCores g) = g)
       /\ (calls (CPUMHzPerCore g) = [] /\ globals (CPUMHzPerCore g) = g)
       /\ (calls (CPUModelName g) = [] /\ globals (CPUModelName g) = g)
       /\ (calls (TotalTicksAvailable g) = []
           /\ globals (TotalTicksAvailable g) = g).
Proof.
  repeat split.
Qed.

(** C10.  On every host and for every context [InfoWithContext] returns a
    nil error and exactly one entry, whatever the sysctl calls answer; so
    the error of the first call of [Init] is nil or holds the core-count
    cause alone, and never a cause of the info probe. *)
Theorem InfoWithContext_never_fails ctx h :
  snd (InfoWithContext ctx h) = None
  /\ List.length (fst (InfoWithContext ctx h)) = 1%nat
  /\ forall g,
       onceLer g = false ->
       (snd (Cpu.Counts h true) = None /\ result (Init h g) = None)
       \/ (exists e,
             snd (Cpu.Counts h true) = Some e
             /\ result (Init h g)
                = Some {| Multierror.Errors := [coresMessage e] |}
             /\ forall e', coresMessage e <> infoMessage e').
Proof.
  destruct (InfoWithContext_shape ctx h) as (c & Hc & _).
  rewrite Hc. split; [reflexivity|]. split; [reflexivity|].
  intros g Hdone. rewrite Init_first by assumption. cbv zeta.
  destruct (Cpu.Counts h true) as [n [e|]]; cbn [fst snd].
  - right. exists e. split; [reflexivity|]. split; [reflexivity|].
    intros e'. unfold coresMessage, infoMessage, Go.Errorf. cbn.
    discriminate.
  - left. split; reflexivity.
Qed.

Lemma InfoWithContext_never_fails_witness :
  result (Init Samples.hostSilent zeroGlobals)
  = Some {| Multierror.Errors := [coresMessage "operation not permitted"] |}.
Proof.
  destruct (proj2 (proj2 (InfoWithContext_never_fails Background
                            Samples.hostSilent)) zeroGlobals eq_refl)
    as [[Hnone _] | (e & He & Hres & _)].
  - discriminate Hnone.
  - inversion He. subst e. exact Hres.
Defined.

End StatsFacts.

(** * Properties of the evaluation broker *)

Module BrokerFacts.

Import Broker.

Lemma before_spec a b : before a b = true <-> goesBefore a b.
Proof.
  unfold before, goesBefore.
  rewrite orb_true_iff, andb_true_iff, Z.ltb_lt, Z.eqb_eq, Z.leb_le.
  tauto.
Qed.

Lemma goesBefore_total a b : before a b = false -> goesBefore b a.
Proof.
  intros H. destruct (before a b) eqn:E; [discriminate|].
  unfold before in E. apply orb_false_iff in E as [E1 E2].
  apply Z.ltb_ge in E1. apply andb_false_iff in E2.
  unfold goesBefore.
  destruct E2 as [E2|E2]; [apply Z.eqb_neq in E2|apply Z.leb_gt in E2]; lia.
Qed.

Lemma goesBefore_trans a b c :
  goesBefore a b -> goesBefore b c -> goesBefore a c.
Proof. unfold goesBefore. lia. Qed.

Lemma insert_In e q x : In x (insert e q) <-> x = e \/ In x q.
Proof.
  induction q as [|y rest IH]; cbn.
  - intuition congruence.
  - destruct (before y e); cbn; rewrite ?IH; intuition congruence.
Qed.

Lemma insert_sorted e q : inQueueOrder q -> inQueueOrder (insert e q).
Proof.
  unfold inQueueOrder.
  induction q as [|x rest IH]; intros Hs; cbn.
  - constructor; constructor.
  - apply StronglySorted_inv in Hs as [Hrest Hx].
    destruct (before x e) eqn:E.
    + constructor; [auto|].
      apply Forall_forall. intros y Hy. apply insert_In in Hy as [->|Hy].
      * apply before_spec; exact E.
      * rewrite Forall_forall in Hx. auto.
    + apply goesBefore_total in E.
      constructor; [constructor; assumption|].
      constructor; [exact E|].
      apply Forall_forall. intros y Hy. rewrite Forall_forall in Hx.
      eapply goesBefore_trans; eauto.
Qed.

Lemma filter_sorted f q : inQueueOrder q -> inQueueOrder (filter f q).
Proof.
  unfold inQueueOrder.
  induction q as [|x rest IH]; intros Hs; cbn; [constructor|].
  apply StronglySorted_inv in Hs as [Hrest Hx].
  destruct (f x); [|auto].
  constructor; [auto|].
  apply Forall_forall. intros y Hy. apply filter_In in Hy as [Hy _].
  rewrite Forall_forall in Hx. auto.
Qed.

Lemma firstn_sorted n : forall q,
  inQueueOrder q -> inQueueOrder (firstn n q).
Proof.
  unfold inQueueOrder.
  induction n as [|n IH]; intros [|x rest] Hs; cbn; try constructor.
  - apply IH. apply StronglySorted_inv in Hs. tauto.
  - apply StronglySorted_inv in Hs as [_ Hx].
    apply Forall_forall. intros y Hy. rewrite Forall_forall in Hx.
    apply Hx. rewrite <- (firstn_skipn n rest). apply in_or_app. auto.
Qed.

(** The queue stays in order under [Enqueue]. *)
Lemma Enqueue_sorted e b :
  inQueueOrder (ready b) -> inQueueOrder (ready (Enqueue e b)).
Proof. intros H. cbn. apply insert_sorted, filter_sorted, H. Qed.

Lemma EnqueueAll_sorted evals : forall b,
  inQueueOrder (ready b) -> inQueueOrder (ready (EnqueueAll evals b)).
Proof.
  induction evals as [|e rest IH]; intros b H; cbn; [exact H|].
  apply IH, Enqueue_sorted, H.
Qed.

(** [take] hands out the first eligible evaluation and keeps the others. *)
Lemma take_filter types q :
  match take types q with
  | Some (e, rest) =>
      filter (eligible types) q = e :: filter (eligible types) rest
  | None => filter (eligible types) q = []
  end.
Proof.
  induction q as [|x rest IH]; cbn; [reflexivity|].
  destruct (eligible types x) eqn:E.
  - reflexivity.
  - destruct (take types rest) as [[e rest']|]; cbn; rewrite ?E; exact IH.
Qed.

(** Successive calls of [Dequeue] hand out the eligible evaluations of the
    queue from its head. *)
Lemma DequeueN_firstn types n : forall b,
  fst (DequeueN n types b) = firstn n (filter (eligible types) (ready b)).
Proof.
  induction n as [|n IH]; intros b; cbn [DequeueN]; [reflexivity|].
  unfold Dequeue. pose proof (take_filter types (ready b)) as Ht.
  destruct (take types (ready b)) as [[e rest]|].
  - rewrite Ht. cbn [firstn].
    specialize (IH {| ready := rest; unack := unack b ++ [(e, nextToken b)];
                      dropped := dropped b;
                      nextToken := S (nextToken b) |}).
    destruct (DequeueN n types _) as [out b'']. cbn in *. congruence.
  - rewrite Ht. reflexivity.
Qed.

Lemma Permutation_filter {A} (f : A -> bool) l l' :
  Permutation l l' -> Permutation (filter f l) (filter f l').
Proof.
  induction 1 as [|x l l' _ IH|x y l|l l' l'' _ IH1 _ IH2]; cbn.
  - constructor.
  - destruct (f x); [constructor|]; assumption.
  - destruct (f x), (f y); try constructor; apply Permutation_refl.
  - eapply Permutation_trans; eassumption.
Qed.

Lemma insert_Permutation e q : Permutation (insert e q) (e :: q).
Proof.
  induction q as [|x rest IH]; cbn; [apply Permutation_refl|].
  destruct (before x e); [|apply Permutation_refl].
  eapply Permutation_trans; [apply perm_skip, IH|apply perm_swap].
Qed.

(** The queue after a sequence of enqueues holds the survivors. *)
Lemma EnqueueAll_survivors evals : forall b acc,
  Permutation (ready b) acc ->
  Permutation (ready (EnqueueAll evals b))
    (fold_left (fun acc e => e :: filter (otherJob e) acc) evals acc).
Proof.
  induction evals as [|e rest IH]; intros b acc H; cbn; [exact H|].
  apply IH. cbn.
  eapply Permutation_trans; [apply insert_Permutation|].
  apply perm_skip, Permutation_filter, H.
Qed.

Lemma filter_otherJob_fresh e acc :
  ~ In (JobID e) (map JobID acc) -> filter (otherJob e) acc = acc.
Proof.
  induction acc as [|x rest IH]; cbn; intros H; [reflexivity|].
  unfold otherJob at 1, sameJob.
  destruct (String.eqb_spec (JobID x) (JobID e)) as [Heq|Hne]; cbn.
  - exfalso. apply H. left. exact Heq.
  - f_equal. apply IH. intros Hin. apply H. right. exact Hin.
Qed.

(** With one evaluation per job nothing is superseded. *)
Lemma survivors_distinct_jobs evals : forall acc,
  NoDup (map JobID (acc ++ evals)) ->
  Permutation
    (fold_left (fun acc e => e :: filter (otherJob e) acc) evals acc)
    (acc ++ evals).
Proof.
  induction evals as [|e rest IH]; intros acc Hnd; cbn.
  - rewrite app_nil_r. apply Permutation_refl.
  - assert (Hperm : Permutation (acc ++ e :: rest) ((e :: acc) ++ rest)).
    { cbn. apply Permutation_sym, Permutation_middle. }
    assert (Hnd' : NoDup (map JobID ((e :: acc) ++ rest))).
    { eapply Permutation_NoDup; [apply Permutation_map, Hperm|exact Hnd]. }
    rewrite filter_otherJob_fresh.
    + eapply Permutation_trans; [apply IH, Hnd'|].
      apply Permutation_sym, Hperm.
    + cbn in Hnd'. apply NoDup_cons_iff in Hnd' as [Hnotin _].
      intros Hin. apply Hnotin. rewrite map_app. apply in_or_app. auto.
Qed.

Lemma filter_all {A} (f : A -> bool) l :
  forallb f l = true -> filter f l = l.
Proof.
  induction l as [|x rest IH]; cbn; [reflexivity|].
  intros H. apply andb_true_iff in H as [Hx Hrest].
  rewrite Hx, IH by assumption. reflexivity.
Qed.

(** C8.  Enqueue any evaluations in any order into an empty broker and call
    [Dequeue] any number of times for the same scheduler types: the
    evaluations handed out come in non-increasing priority, ties by
    ascending CreateIndex.  With at least as many calls as evaluations, what
    is handed out is exactly the eligible evaluations that were not
    superseded; all of the evaluations when they belong to distinct jobs and
    are all eligible. *)
Theorem Dequeue_priority_order evals schedulerTypes calls :
  let b := EnqueueAll evals empty in
  let out := fst (DequeueN calls schedulerTypes b) in
  inQueueOrder out
  /\ ((List.length evals <= calls)%nat ->
      Permutation out (filter (eligible schedulerTypes) (survivors evals)))
  /\ ((List.length evals <= calls)%nat ->
      NoDup (map JobID evals) ->
      forallb (eligible schedulerTypes) evals = true ->
      Permutation out evals).
Proof.
  cbv zeta. rewrite DequeueN_firstn.
  assert (Hsorted : inQueueOrder (ready (EnqueueAll evals empty))).
  { apply EnqueueAll_sorted. constructor. }
  assert (Hperm : Permutation (ready (EnqueueAll evals empty))
                    (survivors evals)).
  { apply EnqueueAll_survivors. apply Permutation_refl. }
  assert (Hall : (List.length evals <= calls)%nat ->
            firstn calls (filter (eligible schedulerTypes)
                            (ready (EnqueueAll evals empty)))
            = filter (eligible schedulerTypes)
                (ready (EnqueueAll evals empty))).
  { intros Hlen. apply firstn_all2.
    eapply Nat.le_trans; [apply filter_length_le|].
    apply Permutation_length in Hperm. rewrite Hperm.
    clear - Hlen. unfold survivors.
    assert (H : forall l acc,
               (List.length
                  (fold_left (fun acc e => e :: filter (otherJob e) acc)
                     l acc) <= List.length acc + List.length l)%nat).
    { induction l as [|e rest IH]; intros acc; cbn; [lia|].
      eapply Nat.le_trans; [apply IH|]. cbn.
      pose proof (filter_length_le (otherJob e) acc). lia. }
    specialize (H evals []). cbn in H. lia. }
  split; [|split].
  - apply firstn_sorted, filter_sorted, Hsorted.
  - intros Hlen. rewrite Hall by assumption.
    apply Permutation_filter, Hperm.
  - intros Hlen Hnd Hel. rewrite Hall by assumption.
    assert (Hs : Permutation (survivors evals) evals).
    { apply (survivors_distinct_jobs evals []). exact Hnd. }
    eapply Permutation_trans; [apply Permutation_filter|].
    + eapply Permutation_trans; [exact Hperm|exact Hs].
    + rewrite filter_all by assumption. apply Permutation_refl.
Qed.

(** A newer evaluation of a job supersedes the queued one: only the newer
    is handed out, the older is kept as canceled. *)
Example Enqueue_supersedes :
  let newer := EvalSamples.mkEval "b1d1" 50 "service" "web" 75 in
  let b := Enqueue newer (EnqueueAll EvalSamples.arrivals empty) in
  fst (DequeueN 4 EvalSamples.allTypes b)
  = [EvalSamples.evalHigh; EvalSamples.evalEarly; newer; EvalSamples.evalLow]
  /\ dropped b = [set_Status canceled EvalSamples.evalLate].
Proof. split; reflexivity. Qed.

Lemma Dequeue_priority_order_witness :
  fst (DequeueN 4 EvalSamples.allTypes
         (EnqueueAll EvalSamples.arrivals empty))
  = [EvalSamples.evalHigh; EvalSamples.evalEarly; EvalSamples.evalLate;
     EvalSamples.evalLow]
  /\ Permutation
       (fst (DequeueN 4 EvalSamples.allTypes
               (EnqueueAll EvalSamples.arrivals empty)))
       EvalSamples.arrivals.
Proof.
  split; [reflexivity|].
  refine (proj2 (proj2 (Dequeue_priority_order EvalSamples.arrivals
                          EvalSamples.allTypes 4)) _ _ _).
  - apply le_n.
  - repeat constructor; cbn; intuition discriminate.
  - reflexivity.
Defined.

End BrokerFacts.

(** * Properties of the evaluations list endpoint *)

Module EndpointFacts.

Import EvalEndpoint.

(** Decoding goes two characters at a time, so the facts about a string are
    proved together with those about the string with one more character in
    front. *)
Lemma decodeHex_odd s :
  (Nat.odd (String.length s) = true -> decodeHex s = None)
  /\ (forall c, Nat.odd (String.length (String c s)) = true ->
                decodeHex (String c s) = None).
Proof.
  induction s as [|a r [IH1 IH2]].
  - split; [discriminate|reflexivity].
  - split; [apply IH2|].
    intros c Hodd. cbn [decodeHex].
    assert (Hr : Nat.odd (String.length r) = true).
    { exact Hodd. }
    rewrite (IH1 Hr). destruct (hexValue c), (hexValue a); reflexivity.
Qed.

Lemma decodeHex_even s :
  (allHex s = true -> Nat.even (String.length s) = true ->
   exists bytes, decodeHex s = Some bytes)
  /\ (forall c, allHex (String c s) = true ->
                Nat.even (String.length (String c s)) = true ->
                exists bytes, decodeHex (String c s) = Some bytes).
Proof.
  induction s as [|a r [IH1 IH2]].
  - split; [intros; exists []; reflexivity|discriminate].
  - split; [apply IH2|].
    intros c Hhex Heven. cbn [decodeHex].
    cbn [allHex] in Hhex. apply andb_true_iff in Hhex as [Hc Hhex].
    apply andb_true_iff in Hhex as [Ha Hr].
    assert (Hlen : Nat.even (String.length r) = true).
    { exact Heven. }
    destruct (IH1 Hr Hlen) as [bytes Hbytes]. rewrite Hbytes.
    unfold isHex in Hc, Ha.
    destruct (hexValue c); [|discriminate].
    destruct (hexValue a); [|discriminate].
    eexists. reflexivity.
Qed.

(** C7.  A request to the evaluations list endpoint whose prefix has an odd
    number of characters is answered with a client error and nothing behind
    the boundary is called; a prefix with an even number of hexadecimal
    characters (with a known status) passes the boundary as an ID-prefix
    filter: one list call is made and every evaluation returned has an ID
    that starts with the bytes of the prefix. *)
Theorem list_prefix_boundary store r :
  (Nat.odd (String.length (prefix r)) = true ->
   exists msg, listEvaluations store r = (ClientError msg, []))
  /\ (allHex (prefix r) = true ->
      Nat.even (String.length (prefix r)) = true ->
      parseStatus (status r) <> None ->
      exists q evals,
        listEvaluations store r = (OK evals, [ListEvals q])
        /\ decodeHex (prefix r) = Some (idPrefix q)
        /\ Forall (fun e => In e store /\ hasIDPrefix (idPrefix q) e = true)
             evals).
Proof.
  unfold listEvaluations, validate. split.
  - intros Hodd. rewrite (proj1 (decodeHex_odd (prefix r)) Hodd).
    eexists. reflexivity.
  - intros Hhex Heven Hstatus.
    destruct (proj1 (decodeHex_even (prefix r)) Hhex Heven) as [bytes ->].
    destruct (parseStatus (status r)) as [st|]; [|contradiction].
    eexists. eexists. split; [reflexivity|]. split; [reflexivity|].
    apply Forall_forall. intros e He. apply filter_In in He as [Hin Hsel].
    split; [exact Hin|]. unfold selects in Hsel. cbn [idPrefix] in *.
    apply andb_true_iff in Hsel as [Hsel _].
    apply andb_true_iff in Hsel as [Hsel _]. exact Hsel.
Qed.

Lemma list_prefix_boundary_witness :
  (exists msg,
     listEvaluations EvalSamples.arrivals (EvalSamples.request "25ba8")
     = (ClientError msg, []))
  /\ fst (listEvaluations EvalSamples.arrivals (EvalSamples.request "25ba81"))
     = OK [EvalSamples.evalLate; EvalSamples.evalEarly].
Proof.
  split; [|reflexivity].
  exact (proj1 (list_prefix_boundary EvalSamples.arrivals
                  (EvalSamples.request "25ba8")) eq_refl).
Defined.

End EndpointFacts.

(** * Exact float64 arithmetic on integers *)

Module Float64Facts.

Import Bits.

Lemma digits_iter_xO k : forall p,
  digits2_pos (Pos.iter xO p k) = (digits2_pos p + k)%positive.
Proof.
  induction k as [k IH|k IH|]; intros p; cbn [Pos.iter digits2_pos].
  - rewrite !IH. lia.
  - rewrite !IH. lia.
  - lia.
Qed.

Lemma digits_shl p k : 0 <= k -> digits (shl p k) = digits p + k.
Proof.
  unfold digits, shl. destruct k as [|n|n]; intros Hk; try lia.
  rewrite digits_iter_xO. lia.
Qed.

Lemma Zpos_iter_xO k : forall p,
  Zpos (Pos.iter xO p k) = Zpos p * 2 ^ Zpos k.
Proof.
  induction k as [k IH|k IH|]; intros p; cbn [Pos.iter].
  - rewrite Pos2Z.inj_xO, !IH.
    replace (Zpos k~1) with (Zpos k + Zpos k + 1) by lia.
    rewrite !Z.pow_add_r by lia. ring.
  - rewrite !IH. replace (Zpos k~0) with (Zpos k + Zpos k) by lia.
    rewrite !Z.pow_add_r by lia. ring.
  - lia.
Qed.

Lemma Zpos_shl p k : 0 <= k -> Zpos (shl p k) = Zpos p * 2 ^ k.
Proof.
  unfold shl. destruct k as [|n|n]; intros Hk; try lia.
  apply Zpos_iter_xO.
Qed.

Lemma digits_bounds p : 2 ^ (digits p - 1) <= Zpos p < 2 ^ digits p.
Proof.
  unfold digits. induction p as [p IH|p IH|]; cbn [digits2_pos].
  - rewrite Pos2Z.inj_succ, (Pos2Z.inj_xI p).
    replace (Z.succ (Zpos (digits2_pos p)) - 1)
      with (Z.succ (Zpos (digits2_pos p) - 1)) by lia.
    rewrite !Z.pow_succ_r by lia.
    set (a := 2 ^ (Zpos (digits2_pos p) - 1)) in *.
    set (b := 2 ^ Zpos (digits2_pos p)) in *. clearbody a b. lia.
  - rewrite Pos2Z.inj_succ, (Pos2Z.inj_xO p).
    replace (Z.succ (Zpos (digits2_pos p)) - 1)
      with (Z.succ (Zpos (digits2_pos p) - 1)) by lia.
    rewrite !Z.pow_succ_r by lia.
    set (a := 2 ^ (Zpos (digits2_pos p) - 1)) in *.
    set (b := 2 ^ Zpos (digits2_pos p)) in *. clearbody a b. lia.
  - cbn. lia.
Qed.

Lemma digits_unique p d :
  2 ^ (d - 1) <= Zpos p < 2 ^ d -> digits p = d.
Proof.
  intros [Hlo Hhi]. pose proof (digits_bounds p) as [Hlo' Hhi'].
  assert (Hd : 0 < digits p) by (unfold digits; lia).
  destruct (Z.lt_trichotomy (digits p) d) as [Hlt|[Heq|Hgt]]; [|exact Heq|].
  - assert (2 ^ digits p <= 2 ^ (d - 1)) by (apply Z.pow_le_mono_r; lia). lia.
  - assert (0 <= d \/ d < 0) as [Hd0|Hd0] by lia.
    + assert (2 ^ d <= 2 ^ (digits p - 1)) by (apply Z.pow_le_mono_r; lia). lia.
    + rewrite (Z.pow_neg_r 2 d) in Hhi by lia. lia.
Qed.

Lemma iter_shr_1_exact k : forall m,
  iter_pos shr_1 k
    {| shr_m := Zpos (Pos.iter xO m k); shr_r := false; shr_s := false |}
  = {| shr_m := Zpos m; shr_r := false; shr_s := false |}.
Proof.
  induction k as [k IH|k IH|]; intros m; cbn [iter_pos Pos.iter].
  - cbn [shr_1 orb]. rewrite !IH. reflexivity.
  - rewrite !IH. reflexivity.
  - reflexivity.
Qed.

(** Rounding a mantissa of 53 digits followed by [k] zeros is exact. *)
Lemma binary_round_aux_exact s m k e :
  digits m = 53 -> 0 <= k -> -1074 <= e + k <= 971 ->
  binary_round_aux prec emax s (Zpos (shl m k)) e loc_Exact
  = S754_finite s m (e + k).
Proof.
  intros Hd Hk He.
  assert (Hshift : forall m' e', digits m' = 53 -> -1074 <= e' ->
            shr_fexp prec emax (Zpos m') e' loc_Exact
            = ({| shr_m := Zpos m'; shr_r := false; shr_s := false |}, e')).
  { intros m' e' Hd' He'. unfold shr_fexp, shr, fexp, emin, prec, emax.
    cbn [Zdigits2 shr_record_of_loc]. fold (digits m'). rewrite Hd'.
    replace (Z.max (53 + e' - 53) (3 - 1024 - 53) - e') with 0 by lia.
    reflexivity. }
  unfold binary_round_aux.
  assert (H1 : shr_fexp prec emax (Zpos (shl m k)) e loc_Exact
               = ({| shr_m := Zpos m; shr_r := false; shr_s := false |},
                  e + k)).
  { destruct k as [|n|n]; [|clear Hshift|lia].
    - cbn [shl]. rewrite Hshift by lia. f_equal. lia.
    - unfold shr_fexp, shr, fexp, emin, prec, emax.
      cbn [Zdigits2 shr_record_of_loc].
      fold (digits (shl m (Zpos n))). rewrite digits_shl by lia. rewrite Hd.
      replace (Z.max (53 + Zpos n + e - 53) (3 - 1024 - 53) - e)
        with (Zpos n) by lia.
      cbn [shl]. rewrite iter_shr_1_exact. reflexivity. }
  rewrite H1. cbn [shr_m loc_of_shr_record round_nearest_even].
  rewrite Hshift by lia. cbn [shr_m].
  unfold emax, prec. destruct (Z.leb_spec (e + k) (1024 - 53)); [reflexivity|lia].
Qed.

(** The float of a positive integer below 2^53 holds it exactly. *)
Lemma of_int_pos p :
  digits p <= 53 ->
  of_int (Zpos p) = S754_finite false (shl p (53 - digits p)) (digits p - 53).
Proof.
  intros Hd. assert (0 < digits p) by (unfold digits; lia).
  unfold of_int, binary_normalize, binary_round, shl_align, fexp, emin,
    prec, emax.
  fold (digits p).
  replace (Z.max (digits p + 0 - 53) (3 - 1024 - 53)) with (digits p - 53)
    by lia.
  destruct (digits p - 53 - 0) as [|n|n] eqn:E; try lia.
  - replace (53 - digits p) with 0 by lia. cbn [shl].
    pose proof (binary_round_aux_exact false p 0 0) as H0.
    cbn [shl] in H0. unfold prec, emax in H0. rewrite H0 by lia.
    f_equal. lia.
  - pose proof (binary_round_aux_exact false (shl p (53 - digits p)) 0
                  (digits p - 53)) as H0.
    cbn [shl] in H0. unfold prec, emax in H0.
    replace (53 - digits p) with (Zpos n) in * by lia. cbn [shl] in *.
    rewrite H0; [f_equal; lia| |lia|lia].
    fold (shl p (Zpos n)). rewrite digits_shl by lia. lia.
Qed.

Lemma digits_le_53 p : Zpos p < 2 ^ 53 -> digits p <= 53.
Proof.
  intros Hp. pose proof (digits_bounds p) as [Hlo _].
  assert (0 < digits p) by (unfold digits; lia).
  destruct (Z.le_gt_cases (digits p) 53) as [H53|H53]; [exact H53|].
  assert (2 ^ 53 <= 2 ^ (digits p - 1)) by (apply Z.pow_le_mono_r; lia).
  lia.
Qed.

(** The product of two integers is computed exactly when it is below 2^53. *)
Lemma mul_of_int_pos a b :
  Zpos a * Zpos b < 2 ^ 53 ->
  mul (of_int (Zpos a)) (of_int (Zpos b)) = of_int (Zpos (a * b)).
Proof.
  intros Hab.
  assert (Ha : digits a <= 53) by (apply digits_le_53; nia).
  assert (Hb : digits b <= 53) by (apply digits_le_53; nia).
  assert (Hc : digits (a * b) <= 53)
    by (apply digits_le_53; rewrite Pos2Z.inj_mul; exact Hab).
  pose proof (digits_bounds a) as [Halo Hahi].
  pose proof (digits_bounds b) as [Hblo Hbhi].
  pose proof (digits_bounds (a * b)) as [Hclo Hchi].
  rewrite Pos2Z.inj_mul in Hclo, Hchi.
  assert (Hda : 0 < digits a) by (unfold digits; lia).
  assert (Hdb : 0 < digits b) by (unfold digits; lia).
  assert (Hdc : 0 < digits (a * b)) by (unfold digits; lia).
  assert (Hk : digits a + digits b - 1 <= digits (a * b)).
  { assert (Hpow : 2 ^ (digits a + digits b - 2) < 2 ^ digits (a * b)).
    { replace (digits a + digits b - 2)
        with ((digits a - 1) + (digits b - 1)) by lia.
      rewrite Z.pow_add_r by lia.
      eapply Z.le_lt_trans; [|exact Hchi].
      apply Z.mul_le_mono_nonneg; try lia; apply Z.pow_nonneg; lia. }
    apply Z.pow_lt_mono_r_iff in Hpow; lia. }
  rewrite !of_int_pos by assumption.
  unfold mul, SFmul. cbn [xorb].
  set (k := 53 + digits (a * b) - digits a - digits b).
  assert (Hm : (shl a (53 - digits a) * shl b (53 - digits b))%positive
               = shl (shl (a * b) (53 - digits (a * b))) k).
  { assert (Hk0 : 0 <= k) by (unfold k; lia).
    assert (Hp : 2 ^ (53 - digits a) * 2 ^ (53 - digits b)
                 = 2 ^ (53 - digits (a * b)) * 2 ^ k).
    { rewrite <- !Z.pow_add_r by lia. f_equal. unfold k. lia. }
    apply Pos2Z.inj. rewrite Pos2Z.inj_mul.
    rewrite !Zpos_shl by lia. rewrite Pos2Z.inj_mul.
    transitivity (Zpos a * Zpos b
                  * (2 ^ (53 - digits a) * 2 ^ (53 - digits b))); [ring|].
    rewrite Hp. ring. }
  rewrite Hm.
  rewrite binary_round_aux_exact.
  - f_equal. unfold k. lia.
  - rewrite digits_shl by lia. lia.
  - unfold k. lia.
  - unfold k. lia.
Qed.

(** Flooring an integer below 2^53 changes nothing. *)
Lemma Floor_of_int_pos p :
  Zpos p < 2 ^ 53 -> Floor (of_int (Zpos p)) = of_int (Zpos p).
Proof.
  intros Hp. pose proof (digits_le_53 p Hp) as Hd.
  rewrite of_int_pos at 1 by assumption.
  unfold Floor. cbn [cond_Zopp]. f_equal.
  rewrite Zpos_shl by lia.
  replace (digits p - 53) with (- (53 - digits p)) by lia.
  rewrite Z.shiftl_opp_r, Z.shiftr_div_pow2 by lia.
  apply Z.div_mul. apply Z.pow_nonzero; lia.
Qed.

Lemma ticks_exact n m :
  0 <= n -> 0 < m < 2 ^ 53 -> n * m < 2 ^ 53 ->
  Floor (mul (of_int n) (of_int m)) = of_int (n * m).
Proof.
  intros Hn Hm Hnm. destruct m as [|b|b]; try lia.
  destruct n as [|a|a]; try lia.
  - assert (Hb : digits b <= 53) by (apply digits_le_53; lia).
    rewrite (of_int_pos b) by assumption. reflexivity.
  - rewrite mul_of_int_pos by exact Hnm.
    rewrite Floor_of_int_pos by (rewrite Pos2Z.inj_mul; exact Hnm).
    reflexivity.
Qed.

End Float64Facts.

(** * Further properties of the CPU fingerprint *)

Module StatsMore.

Import Context Stats StatsView Text.

Lemma wrap_int_small n : 0 <= n < 2 ^ 63 -> Go.wrap_int n = n.
Proof.
  intros Hn. unfold Go.wrap_int. rewrite Z.mod_small; lia.
Qed.

(** X1.  On a host that reports [n] logical CPUs, with [n] below 2^41, the
    first call of [Init] returns no error and stores the core count [n], 3200
    MHz per core and total ticks of exactly 3200·n: neither the conversion to
    float64, nor the product, nor the floor loses anything. *)
Theorem Init_ticks_exact h g n :
  onceLer g = false ->
  logical_cpus h = Value n ->
  0 <= n < 2 ^ 41 ->
  let r := Init h g in
  result r = None
  /\ cpuNumCores (globals r) = n
  /\ cpuMhzPerCore (globals r) = of_int 3200
  /\ cpuTotalTicks (globals r) = of_int (3200 * n).
Proof.
  intros Hdone Hcpus Hn. cbv zeta.
  rewrite StatsFacts.Init_first by assumption. cbv zeta.
  unfold Cpu.Counts. rewrite Hcpus. rewrite wrap_int_small by lia.
  unfold result, globals.
  cbn [fst snd cpuNumCores cpuMhzPerCore cpuTotalTicks].
  repeat split.
  rewrite Float64Facts.ticks_exact by lia. f_equal. lia.
Qed.

Lemma Init_ticks_exact_witness :
  cpuTotalTicks (globals (Init MoreSamples.hostBig zeroGlobals))
  = of_int 409600.
Proof.
  refine (proj2 (proj2 (proj2
            (Init_ticks_exact MoreSamples.hostBig zeroGlobals 128
               eq_refl eq_refl _)))).
  split; [discriminate|reflexivity].
Defined.

(** X2.  On a host where the core-count probe fails, the first call of [Init]
    still records 3200 MHz and the model name, but a core count of 0 and
    total ticks of +0; it returns the one-cause error and marks the Once as
    done, so the zero fingerprint stays. *)
Theorem Init_counts_failure h g msg :
  onceLer g = false ->
  logical_cpus h = Errno msg ->
  let r := Init h g in
  result r = Some {| Multierror.Errors := [coresMessage msg] |}
  /\ cpuNumCores (globals r) = 0
  /\ cpuTotalTicks (globals r) = S754_zero false
  /\ cpuMhzPerCore (globals r) = of_int 3200
  /\ cpuModelName (globals r)
     = fst (Unix.Sysctl h "machdep.cpu.brand_string")
  /\ onceLer (globals r) = true.
Proof.
  intros Hdone Hcpus. cbv zeta.
  rewrite StatsFacts.Init_first by assumption. cbv zeta.
  unfold Cpu.Counts. rewrite Hcpus. repeat split.
Qed.

Lemma Init_counts_failure_witness :
  cpuTotalTicks (globals (Init Samples.hostSilent zeroGlobals))
  = S754_zero false
  /\ cpuMhzPerCore (globals (Init Samples.hostSilent zeroGlobals))
     = of_int 3200.
Proof.
  pose proof (Init_counts_failure Samples.hostSilent zeroGlobals
                "operation not permitted" eq_refl eq_refl) as H.
  exact (conj (proj1 (proj2 (proj2 H))) (proj1 (proj2 (proj2 (proj2 H))))).
Defined.

(** X3.  The loop over the probe's answer reads its first entry only: two
    answers with the same first entry and the same error leave [Init] in the
    same state, whatever follows the first entry.  With no entry at all the
    model name keeps its value and the per-core MHz is the floor of the value
    it had. *)
Theorem Init_reads_first_entry now pc pi1 pi2 g :
  onceLer g = false ->
  hd_error (fst (pi1 (probeContext now)))
  = hd_error (fst (pi2 (probeContext now))) ->
  snd (pi1 (probeContext now)) = snd (pi2 (probeContext now)) ->
  InitWith now pc pi1 g = InitWith now pc pi2 g
  /\ (fst (pi1 (probeContext now)) = [] ->
      cpuModelName (globals (InitWith now pc pi1 g)) = cpuModelName g
      /\ cpuMhzPerCore (globals (InitWith now pc pi1 g))
         = Floor (cpuMhzPerCore g)).
Proof.
  intros Hdone Hhd Herr.
  rewrite !StatsFacts.InitWith_first by assumption. cbv zeta.
  destruct (pi1 (probeContext now)) as [[|c1 r1] e1],
           (pi2 (probeContext now)) as [[|c2 r2] e2];
    cbn [fst snd hd_error firstMhz firstModelName] in *;
    try discriminate; subst.
  - split; [reflexivity|]. intros _. split; reflexivity.
  - inversion Hhd; subst. split; [reflexivity|]. discriminate.
Qed.

Lemma Init_reads_first_entry_witness :
  InitWith 0 Samples.countsFour MoreSamples.infoTwo zeroGlobals
  = InitWith 0 Samples.countsFour Samples.infoLow zeroGlobals.
Proof.
  exact (proj1 (Init_reads_first_entry 0 Samples.countsFour
                  MoreSamples.infoTwo Samples.infoLow zeroGlobals
                  eq_refl eq_refl eq_refl)).
Defined.

(** *** Feature flags *)

Lemma allChars_of_list ok l :
  allChars ok (string_of_list_ascii l) = forallb ok l.
Proof.
  induction l as [|c r IH]; cbn; [reflexivity|]. rewrite IH. reflexivity.
Qed.

Lemma string_of_list_nonempty c l :
  string_of_list_ascii (rev (c :: l)) <> EmptyString.
Proof.
  cbn [rev]. destruct (rev l) as [|a r]; cbn; discriminate.
Qed.

(** The fields of a string are not empty and hold no white space. *)
Lemma fields_from_fields s : forall cur f,
  forallb notSpace cur = true ->
  In f (Go.fields_from cur s) ->
  f <> EmptyString /\ allChars notSpace f = true.
Proof.
  assert (Hflush : forall cur f,
            forallb notSpace cur = true ->
            In f match cur with
                 | [] => []
                 | _ => [string_of_list_ascii (rev cur)]
                 end ->
            f <> EmptyString /\ allChars notSpace f = true).
  { intros [|c cur] f Hcur Hin; [contradiction|].
    destruct Hin as [<-|[]]. split; [apply string_of_list_nonempty|].
    rewrite allChars_of_list. apply forallb_forall. intros x Hx.
    apply in_rev in Hx. rewrite forallb_forall in Hcur. auto. }
  induction s as [|c r IH]; intros cur f Hcur Hin; cbn [Go.fields_from] in Hin.
  - eapply Hflush; eassumption.
  - destruct (Go.isSpace c) eqn:Hc.
    + apply in_app_or in Hin as [Hin|Hin].
      * eapply Hflush; eassumption.
      * apply (IH [] f); [reflexivity|exact Hin].
    + apply (IH (c :: cur) f); [|exact Hin].
      cbn [forallb]. unfold notSpace at 1. rewrite Hc, Hcur. reflexivity.
Qed.

(** The fields of an ASCII string are ASCII. *)
Lemma fields_from_ascii s : forall cur f,
  forallb asciiChar cur = true ->
  isAscii s = true ->
  In f (Go.fields_from cur s) ->
  isAscii f = true.
Proof.
  assert (Hflush : forall cur f,
            forallb asciiChar cur = true ->
            In f match cur with
                 | [] => []
                 | _ => [string_of_list_ascii (rev cur)]
                 end ->
            isAscii f = true).
  { intros [|c cur] f Hcur Hin; [contradiction|].
    destruct Hin as [<-|[]]. unfold isAscii.
    rewrite allChars_of_list. apply forallb_forall. intros x Hx.
    apply in_rev in Hx. rewrite forallb_forall in Hcur. auto. }
  unfold isAscii in *.
  induction s as [|c r IH]; intros cur f Hcur Hs Hin;
    cbn [Go.fields_from] in Hin.
  - eapply Hflush; eassumption.
  - cbn [allChars] in Hs. apply andb_true_iff in Hs as [Hc Hr].
    destruct (Go.isSpace c).
    + apply in_app_or in Hin as [Hin|Hin].
      * eapply Hflush; eassumption.
      * apply (IH [] f); [reflexivity|exact Hr|exact Hin].
    + apply (IH (c :: cur) f); [|exact Hr|exact Hin].
      cbn [forallb]. rewrite Hc, Hcur. reflexivity.
Qed.

Lemma lowerAscii_flagChar c :
  notSpace c = true -> flagChar (Go.lowerAscii c) = true.
Proof.
  destruct c as [[|] [|] [|] [|] [|] [|] [|] [|]]; vm_compute;
    intros H; try reflexivity; discriminate H.
Qed.

Lemma lowerAscii_ascii c :
  asciiChar c = true -> asciiChar (Go.lowerAscii c) = true.
Proof.
  destruct c as [[|] [|] [|] [|] [|] [|] [|] [|]]; vm_compute;
    intros H; try reflexivity; discriminate H.
Qed.

Lemma ToLower_normal f :
  f <> EmptyString -> allChars notSpace f = true ->
  normalFlag (Go.ToLower f) = true.
Proof.
  intros Hne Hall. unfold normalFlag. apply andb_true_iff. split.
  - destruct f; [contradiction|]. reflexivity.
  - clear Hne. induction f as [|c r IH]; [reflexivity|].
    cbn [allChars Go.ToLower] in *. apply andb_true_iff in Hall as [Hc Hr].
    rewrite lowerAscii_flagChar, IH by assumption. reflexivity.
Qed.

Lemma ToLower_ascii f : isAscii f = true -> isAscii (Go.ToLower f) = true.
Proof.
  unfold isAscii. induction f as [|c r IH]; [reflexivity|].
  cbn [allChars Go.ToLower]. intros Hf.
  apply andb_true_iff in Hf as [Hc Hr].
  rewrite lowerAscii_ascii, IH by assumption. reflexivity.
Qed.

(** A flag that is normalised and ASCII. *)
Lemma appendFlags_normal h name flags :
  asciiEntry h name = true ->
  Forall (fun f => normalFlag f = true /\ isAscii f = true) flags ->
  Forall (fun f => normalFlag f = true /\ isAscii f = true)
    (appendFlags flags (Unix.Sysctl h name)).
Proof.
  intros Hentry Hflags. unfold appendFlags, Unix.Sysctl, asciiEntry in *.
  destruct (sysctl_string h name) as [v|msg]; cbn [fst snd]; [|exact Hflags].
  apply Forall_app. split; [exact Hflags|].
  apply Forall_forall. intros f Hf. apply in_map_iff in Hf as (x & <- & Hx).
  destruct (fields_from_fields v [] x eq_refl Hx) as [Hne Hall].
  split; [apply ToLower_normal; assumption|].
  apply ToLower_ascii. exact (fields_from_ascii v [] x eq_refl Hentry Hx).
Qed.

(** X4.  On a host whose three feature entries (machdep.cpu.features,
    leaf7_features, extfeatures) hold ASCII text or cannot be read, every
    feature flag in the entry [InfoWithContext] returns is normalised: it is
    not empty, it is ASCII, and it holds no white space and no capital
    letter. *)
Theorem InfoWithContext_flags_normal ctx h :
  asciiEntry h "machdep.cpu.features" = true ->
  asciiEntry h "machdep.cpu.leaf7_features" = true ->
  asciiEntry h "machdep.cpu.extfeatures" = true ->
  exists c,
    InfoWithContext ctx h = ([c], None)
    /\ Forall (fun f => normalFlag f = true /\ isAscii f = true) (Flags c).
Proof.
  intros H1 H2 H3.
  destruct (StatsFacts.InfoWithContext_shape ctx h)
    as (c & Hc & _ & _ & _ & _ & _ & Hflags).
  exists c. split; [exact Hc|]. rewrite Hflags. unfold probedFlags.
  repeat (apply appendFlags_normal; [assumption|]). constructor.
Qed.

Lemma InfoWithContext_flags_normal_witness :
  Flags (hd (Samples.cpuWithMhz "" zero)
           (fst (InfoWithContext Background MoreSamples.hostBig)))
  = ["fpu"; "sse4.2"; "avx1.0"; "syscall"; "xd"]%string
  /\ Forall (fun f => normalFlag f = true /\ isAscii f = true)
       (Flags (hd (Samples.cpuWithMhz "" zero)
                 (fst (InfoWithContext Background MoreSamples.hostBig)))).
Proof.
  split; [reflexivity|].
  destruct (InfoWithContext_flags_normal Background MoreSamples.hostBig
              eq_refl eq_refl eq_refl) as (c & Hc & Hall).
  rewrite Hc. exact Hall.
Defined.

(** The conversion of a uint32 to int32 keeps the value modulo 2^32 and lands
    in the range of int32. *)
Lemma int32_of_uint32_range v :
  let i := Go.int32_of_uint32 (Go.wrap_uint32 v) in
  - 2 ^ 31 <= i < 2 ^ 31 /\ (i - v) mod 2 ^ 32 = 0.
Proof.
  cbv zeta. unfold Go.int32_of_uint32, Go.wrap_uint32.
  pose proof (Z.mod_pos_bound v (2 ^ 32) ltac:(lia)) as Hb.
  pose proof (Z.div_mod v (2 ^ 32) ltac:(lia)) as Hdm.
  destruct (Z.ltb_spec (v mod 2 ^ 32) (2 ^ 31)); split; try lia.
  - replace (v mod 2 ^ 32 - v) with (- (v / 2 ^ 32) * 2 ^ 32) by lia.
    apply Z.mod_mul. lia.
  - replace (v mod 2 ^ 32 - 2 ^ 32 - v)
      with ((- (v / 2 ^ 32) - 1) * 2 ^ 32) by lia.
    apply Z.mod_mul. lia.
Qed.

(** X5.  The cache size, core count and stepping that [InfoWithContext]
    reports always lie in the range of int32.  A cache size the host reports
    below 2^31 is kept as it is; one from 2^31 up to 2^32 comes out negative,
    lowered by 2^32; when the host does not answer, the size is 0. *)
Theorem InfoWithContext_int32_fields ctx h :
  exists c,
    InfoWithContext ctx h = ([c], None)
    /\ - 2 ^ 31 <= CacheSize c < 2 ^ 31
    /\ - 2 ^ 31 <= Cores c < 2 ^ 31
    /\ - 2 ^ 31 <= Stepping c < 2 ^ 31
    /\ (forall v,
          sysctl_uint32 h "machdep.cpu.cache.size" = Value v ->
          (0 <= v < 2 ^ 31 -> CacheSize c = v)
          /\ (2 ^ 31 <= v < 2 ^ 32 -> CacheSize c = v - 2 ^ 32))
    /\ (forall msg,
          sysctl_uint32 h "machdep.cpu.cache.size" = Errno msg ->
          CacheSize c = 0).
Proof.
  assert (Hrange : forall name,
            - 2 ^ 31 <= Go.int32_of_uint32 (fst (Unix.SysctlUint32 h name))
            < 2 ^ 31).
  { intros name. unfold Unix.SysctlUint32.
    destruct (sysctl_uint32 h name) as [v|msg]; cbn [fst].
    - apply (int32_of_uint32_range v).
    - cbn. lia. }
  unfold InfoWithContext.
  pose proof (Hrange "machdep.cpu.stepping"%string) as Hs.
  pose proof (Hrange "machdep.cpu.core_count"%string) as Hc.
  pose proof (Hrange "machdep.cpu.cache.size"%string) as Hz.
  unfold Unix.SysctlUint32 in *.
  destruct (Unix.Sysctl h "machdep.cpu.brand_string") as [modelName e1].
  destruct (sysctl_uint32 h "machdep.cpu.family") as [family|e2].
  all: destruct (sysctl_uint32 h "machdep.cpu.model") as [model|e3].
  all: destruct (sysctl_uint32 h "machdep.cpu.stepping") as [stepping|e4].
  all: destruct (sysctl_uint32 h "machdep.cpu.core_count") as [cores|e5].
  all: destruct (sysctl_uint32 h "machdep.cpu.cache.size") as [cache|e6].
  all: destruct (Unix.Sysctl h "machdep.cpu.vendor") as [vendorID e7].
  all: eexists; split; [reflexivity|]; cbn [CacheSize Cores Stepping fst] in *.
  all: split; [exact Hz|]; split; [exact Hc|]; split; [exact Hs|].
  all: split; [intros v Hv|intros msg Hmsg]; try discriminate.
  all: try reflexivity.
  all: inversion Hv; subst v; unfold Go.int32_of_uint32, Go.wrap_uint32.
  all: split; intros Hv'.
  all: try (rewrite Z.mod_small by lia;
            destruct (Z.ltb_spec cache (2 ^ 31)); lia).
Qed.

Lemma InfoWithContext_int32_fields_witness :
  CacheSize (hd (Samples.cpuWithMhz "" zero)
               (fst (InfoWithContext Background MoreSamples.hostBig)))
  = 3221225472 - 2 ^ 32.
Proof.
  destruct (InfoWithContext_int32_fields Background MoreSamples.hostBig)
    as (c & Hc & _ & _ & _ & Hv & _).
  rewrite Hc. cbn [fst hd].
  apply (Hv 3221225472 eq_refl). split; [discriminate|reflexivity].
Defined.

Lemma readDecimal_FormatUint10 u :
  0 <= u -> Decimal.readDecimal (Go.FormatUint10 u) = Some u.
Proof.
  intros Hu. unfold Decimal.readDecimal, Go.FormatUint10.
  rewrite NilZero.usu.
  - cbn [option_map]. rewrite DecimalN.Unsigned.of_to, Z2N.id by exact Hu.
    reflexivity.
  - destruct (Z.to_N u) as [|p]; [discriminate|].
    apply DecimalPos.Unsigned.to_uint_nonnil.
Qed.

(** X6.  The family and the model in the entry [InfoWithContext] returns are
    decimal numerals: read back, each gives the number the host reported,
    reduced modulo 2^32, and 0 when the host did not answer. *)
Theorem InfoWithContext_family_model ctx h :
  exists c,
    InfoWithContext ctx h = ([c], None)
    /\ Decimal.readDecimal (Family c)
       = Some match sysctl_uint32 h "machdep.cpu.family" with
              | Value v => v mod 2 ^ 32
              | Errno _ => 0
              end
    /\ Decimal.readDecimal (Model c)
       = Some match sysctl_uint32 h "machdep.cpu.model" with
              | Value v => v mod 2 ^ 32
              | Errno _ => 0
              end.
Proof.
  assert (Hread : forall name,
            Decimal.readDecimal
              (Go.FormatUint10 (fst (Unix.SysctlUint32 h name)))
            = Some match sysctl_uint32 h name with
                   | Value v => v mod 2 ^ 32
                   | Errno _ => 0
                   end).
  { intros name. unfold Unix.SysctlUint32, Go.wrap_uint32.
    destruct (sysctl_uint32 h name) as [v|msg]; cbn [fst].
    - apply readDecimal_FormatUint10. apply Z.mod_pos_bound. lia.
    - reflexivity. }
  pose proof (Hread "machdep.cpu.family"%string) as Hf.
  pose proof (Hread "machdep.cpu.model"%string) as Hm.
  unfold InfoWithContext.
  destruct (Unix.Sysctl h "machdep.cpu.brand_string") as [modelName e1].
  destruct (Unix.SysctlUint32 h "machdep.cpu.family") as [family e2].
  destruct (Unix.SysctlUint32 h "machdep.cpu.model") as [model e3].
  destruct (Unix.SysctlUint32 h "machdep.cpu.stepping") as [stepping e4].
  destruct (Unix.SysctlUint32 h "machdep.cpu.core_count") as [cores e5].
  destruct (Unix.SysctlUint32 h "machdep.cpu.cache.size") as [cacheSize e6].
  destruct (Unix.Sysctl h "machdep.cpu.vendor") as [vendorID e7].
  eexists. split; [reflexivity|]. cbn [Family Model fst] in *.
  split; assumption.
Qed.

End StatsMore.

(** * Properties of the job client status summary component *)

Module JobClientFacts.

Import JobClientStatusSummary.

Section Component.

Variable value : Type.
Variable ofBool : bool -> value.
Variable ToString : value -> string.
Variable JSON_parse : string -> completion value.

(** X7.  With nothing stored under the key, a new component is expanded:
    [isExpanded] is true, [JSON.parse] is not consulted and nothing is
    thrown. *)
Theorem isExpanded_default ls :
  ls storageKey = None ->
  isExpanded value ofBool JSON_parse ls create
  = (Normal (ofBool true), {| isExpandedCache := Some (ofBool true) |}).
Proof.
  intros Hnone. unfold isExpanded, computeIsExpanded. cbn [isExpandedCache create].
  rewrite Hnone. reflexivity.
Qed.

(** X8.  What [persist] stores is what [isExpanded] then reads: after
    [persist(item, b)] with a boolean [b], in any storage (even one holding
    text that is no JSON) and whatever the component had cached, [isExpanded]
    is [b], both in this component and in one created afterwards on the same
    storage. *)
Theorem persist_isExpanded ls c item b :
  booleansRoundTrip value ofBool ToString JSON_parse ->
  let after := persist value ToString item (ofBool b) ls c in
  fst (isExpanded value ofBool JSON_parse (fst after) (snd after))
  = Normal (ofBool b)
  /\ fst (isExpanded value ofBool JSON_parse (fst after) create)
     = Normal (ofBool b).
Proof.
  intros (Hstr & Htrue & Hfalse). cbv zeta.
  unfold persist, isExpanded, computeIsExpanded, store.
  cbn [fst snd isExpandedCache create].
  rewrite String.eqb_refl, Hstr.
  destruct b; rewrite ?Htrue, ?Hfalse; split; reflexivity.
Qed.

(** X9.  Once [isExpanded] has been read, its value is served from the
    component: later reads return the same value whatever the storage has
    become in the meantime, and do not change the component. *)
Theorem isExpanded_cached ls ls' c v :
  fst (isExpanded value ofBool JSON_parse ls c) = Normal v ->
  let c' := snd (isExpanded value ofBool JSON_parse ls c) in
  isExpanded value ofBool JSON_parse ls' c' = (Normal v, c').
Proof.
  unfold isExpanded. destruct (isExpandedCache c) as [w|] eqn:Hc.
  - cbn [fst snd]. intros Hv. inversion Hv; subst. rewrite Hc. reflexivity.
  - destruct (computeIsExpanded value ofBool JSON_parse ls) as [w|msg];
      cbn [fst snd]; intros Hv; [|discriminate].
    inversion Hv; subst. reflexivity.
Qed.

End Component.

Lemma isExpanded_default_witness :
  fst (isExpanded JsSample.value JsSample.JsBool JsSample.parseLiteral
         emptyStorage create)
  = Normal (JsSample.JsBool true).
Proof.
  exact (f_equal fst
           (isExpanded_default JsSample.value JsSample.JsBool
              JsSample.parseLiteral emptyStorage eq_refl)).
Defined.

Lemma persist_isExpanded_witness :
  fst (isExpanded JsSample.value JsSample.JsBool JsSample.parseLiteral
         JsSample.brokenStorage create)
  = Throw "SyntaxError"
  /\ fst (isExpanded JsSample.value JsSample.JsBool JsSample.parseLiteral
            (fst (persist JsSample.value JsSample.ToString JsSample.JsNull
                    (JsSample.JsBool false) JsSample.brokenStorage create))
            create)
     = Normal (JsSample.JsBool false).
Proof.
  split; [reflexivity|].
  refine (proj2 (persist_isExpanded JsSample.value JsSample.JsBool
                   JsSample.ToString JsSample.parseLiteral
                   JsSample.brokenStorage create JsSample.JsNull false _)).
  split; [intros [|]; reflexivity|split; reflexivity].
Defined.

Lemma isExpanded_cached_witness :
  let c' :=
    snd (isExpanded JsSample.value JsSample.JsBool JsSample.parseLiteral
           emptyStorage create) in
  isExpanded JsSample.value JsSample.JsBool JsSample.parseLiteral
    JsSample.brokenStorage c'
  = (Normal (JsSample.JsBool true), c').
Proof.
  exact (isExpanded_cached JsSample.value JsSample.JsBool
           JsSample.parseLiteral emptyStorage JsSample.brokenStorage create
           (JsSample.JsBool true) eq_refl).
Defined.

End JobClientFacts.
